(** * transductive-vos.pytorch: the training script [main.py]

    A shallow embedding of [parse_options], [main], [train] and [validate].
    The script is glue over a deep-learning framework, so the framework is an
    interface ([Torch]) and the script is a program in a small monad that
    records the calls it makes to the framework, the logger, visdom and the
    file system, threads the live objects and the files, and can raise a
    Python exception. *)

From Stdlib Require Import ZArith List String Ascii Lia DecimalString DecimalZ
  DecimalPos.
From stdpp Require Import base gmap strings list.

Open Scope string_scope.
Open Scope list_scope.
Open Scope Z_scope.

(** ** Python values the script computes with *)

Inductive exn : Type :=
| NotImplementedError
| ZeroDivisionError
| TypeError.

Inductive result (A : Type) : Type :=
| Ok (a : A)
| Raise (e : exn).
Arguments Ok {A} a.
Arguments Raise {A} e.

(** [a % b] on Python ints: floor remainder, [ZeroDivisionError] on [b = 0]. *)
Definition py_mod (a b : Z) : result Z :=
  if b =? 0 then Raise ZeroDivisionError else Ok (a mod b).

(** [a // b] on Python ints. *)
Definition py_floordiv (a b : Z) : result Z :=
  if b =? 0 then Raise ZeroDivisionError else Ok (a / b).

(** [range(a, b)]. *)
Definition range (a b : Z) : list Z :=
  map (fun k => a + Z.of_nat k) (seq 0 (Z.to_nat (b - a))).

(** [enumerate(l)], counting from [i]. *)
Fixpoint enumerate_from {A : Type} (i : Z) (l : list A) : list (Z * A) :=
  match l with
  | [] => []
  | x :: l' => (i, x) :: enumerate_from (i + 1) l'
  end.
Definition enumerate {A : Type} (l : list A) : list (Z * A) := enumerate_from 0 l.

(** ['{}'.format(n)] for an int. *)
Definition str_of_int (n : Z) : string := NilZero.string_of_int (Z.to_int n).

(** [int(s)], restricted to an optional minus sign followed by digits. *)
Definition py_int (s : string) : option Z :=
  match NilZero.int_of_string s with
  | Some d => Some (Z.of_int d)
  | None => None
  end.

(** Truth value of a [str]-or-[None] attribute, as in [if args.resume:]. *)
Definition truthy (o : option string) : bool :=
  match o with
  | Some (String _ _) => true
  | _ => false
  end.

Fixpoint ends_with_sep (s : string) : bool :=
  match s with
  | "" => false
  | String c "" => Ascii.eqb c "/"
  | String _ s' => ends_with_sep s'
  end.

(** [os.path.join(a, b)] of posixpath. *)
Definition path_join (a b : string) : string :=
  if String.prefix "/" b then b
  else if orb (String.eqb a "") (ends_with_sep a) then a +:+ b
  else a +:+ "/" +:+ b.

(** The keyword arguments [torch.utils.data.DataLoader] is built with; the
    sampler is always [DistributedSampler(dataset)]. *)
Inductive Sampler (D : Type) : Type :=
| DistributedSampler (d : D).
Arguments DistributedSampler {D} d.

Record DataLoader (D : Type) : Type := {
  dl_dataset : D;
  dl_batch_size : Z;
  dl_shuffle : bool;
  dl_sampler : Sampler D;
  dl_pin_memory : bool;
  dl_num_workers : Z;
  dl_drop_last : bool
}.
Arguments dl_dataset {D} _.
Arguments dl_batch_size {D} _.
Arguments dl_shuffle {D} _.
Arguments dl_sampler {D} _.
Arguments dl_pin_memory {D} _.
Arguments dl_num_workers {D} _.
Arguments dl_drop_last {D} _.

(** ** The framework the script is written against

    [torch], [visdom], [dataset], [modeling] and [lib.loss] are imported by
    the script, not defined in it; what the script calls of them is taken as
    an interface. The model, the optimizer and the scheduler share their
    parameters by reference, so their live state is one [Heap] that the calls
    transform. The value of the criterion is unpacked as a pair by [train]
    and divided as a tensor by [validate]; both uses are taken to succeed. *)
Class Torch : Type := {
  Float : Type;        (* Python float *)
  Tensor : Type;       (* the loss tensor *)
  Prediction : Type;
  Batch : Type;        (* one (img_input, annotation_input, _) of a loader *)
  CritIn : Type;       (* (ref, target, ref_label, target_label) *)
  CritOut : Type;      (* what CrossEntropy.forward returns *)
  Heap : Type;
  ModelSD : Type;
  OptimSD : Type;
  SchedSD : Type;
  Dataset : Type;

  py_float : string -> option Float;          (* float(s) *)
  float_lit : string -> Float;                (* a float literal of the script *)
  float_mul_int : Float -> Z -> Float;        (* x * n *)
  float_add : Float -> Float -> Float;        (* x + y *)
  float_div_int : Float -> Z -> Float;        (* x / n *)

  (* lines 66-79: VOSNet, SyncBatchNorm, DistributedDataParallel, SGD and
     CosineAnnealingLR, from model, local_rank, lr, wd and epochs *)
  construct : string -> Z -> Float -> Float -> Z -> Heap;
  DavisTrain : string -> string -> Z -> bool -> Dataset;
  (* the batches one iteration over a loader yields, in the epoch given *)
  loader_iter : DataLoader Dataset -> Z -> list Batch;

  model_train : Heap -> Heap;                 (* model.train() *)
  model_eval : Heap -> Heap;                  (* model.eval() *)
  (* the tensor code from the shape unpacking to the scatter_, with the
     forward pass model(img_input) in its middle *)
  features : Batch -> Heap -> CritIn * Heap;
  batch_size_of : Batch -> Z;                 (* img_input.shape[0] *)
  CrossEntropy : Float -> CritIn -> CritOut;  (* CrossEntropy(temperature)(...) *)
  unpack_pair : CritOut -> Tensor * Prediction;  (* loss, prediction = ... *)
  as_tensor : CritOut -> Tensor;              (* the value used as a dividend *)
  tensor_div : Tensor -> Z -> Tensor;         (* loss / n *)
  backward : Tensor -> Heap -> Heap;          (* loss.backward() *)
  item : Tensor -> Float;                     (* loss.item() *)
  optimizer_step : Heap -> Heap;              (* optimizer.step() *)
  optimizer_zero_grad : Heap -> Heap;         (* optimizer.zero_grad() *)
  optimizer_lr : Heap -> Float;               (* optimizer.param_groups[0]['lr'] *)
  scheduler_step : Heap -> Heap;              (* scheduler.step() *)

  model_state_dict : Heap -> ModelSD;
  optimizer_state_dict : Heap -> OptimSD;
  scheduler_state_dict : Heap -> SchedSD;
  model_load_state_dict : ModelSD -> Heap -> Heap;
  optimizer_load_state_dict : OptimSD -> Heap -> Heap;
  scheduler_load_state_dict : SchedSD -> Heap -> Heap
}.

Section Script.
Context `{T : Torch}.

(** ** The argparse namespace *)

Record Args : Type := {
  frame_num : Z;
  dataset : string;
  data : option string;
  resume : option string;
  save_model : string;
  epochs : Z;
  model : string;
  temperature : Float;
  bs : Z;
  lr : Float;
  wd : Float;
  iter_size : Z;
  cj : bool;
  local_rank : Z;
  val_freq : Z;
  save_freq : Z;
  log_freq : Z
}.

(** The namespace of defaults, one field per [add_argument]. *)
Definition default_args : Args := {|
  frame_num := 10;
  dataset := "davis";
  data := None;
  resume := None;
  save_model := "./checkpoints";
  epochs := 240;
  model := "resnet50";
  temperature := float_lit "1.0";
  bs := 16;
  lr := float_lit "0.02";
  wd := float_lit "3e-4";
  iter_size := 1;
  cj := false;
  local_rank := 0;
  val_freq := 1;
  save_freq := 1;
  log_freq := 25
|}.

(** The destinations of the parser, and the option strings of each. *)
Inductive dest : Type :=
| d_frame_num | d_dataset | d_data | d_resume | d_save_model | d_epochs
| d_model | d_temperature | d_bs | d_lr | d_wd | d_iter_size | d_cj
| d_local_rank | d_val_freq | d_save_freq | d_log_freq.

Definition option_strings : list (string * dest) :=
  [ ("--frame_num", d_frame_num); ("-n", d_frame_num);
    ("--dataset", d_dataset); ("-ds", d_dataset);
    ("--data", d_data);
    ("--resume", d_resume); ("-r", d_resume);
    ("--save_model", d_save_model); ("-m", d_save_model);
    ("--epochs", d_epochs);
    ("--model", d_model);
    ("--temperature", d_temperature); ("-t", d_temperature);
    ("--bs", d_bs);
    ("--lr", d_lr);
    ("--wd", d_wd);
    ("--iter_size", d_iter_size);
    ("--cj", d_cj);
    ("--local_rank", d_local_rank);
    ("--val_freq", d_val_freq);
    ("--save_freq", d_save_freq);
    ("--log_freq", d_log_freq) ].

Fixpoint find_option (tok : string) (l : list (string * dest)) : option dest :=
  match l with
  | [] => None
  | (s, d) :: l' => if String.eqb tok s then Some d else find_option tok l'
  end.

Definition with_int (s : string) (k : Z -> Args) : option Args :=
  match py_int s with Some z => Some (k z) | None => None end.

Definition with_float (s : string) (k : Float -> Args) : option Args :=
  match py_float s with Some x => Some (k x) | None => None end.

(** The store action of one option with its argument converted by [type]. *)
Definition store (d : dest) (v : string) (a : Args) : option Args :=
  let '{| frame_num := fn; dataset := ds; data := da; resume := re;
          save_model := sm; epochs := ep; model := mo; temperature := te;
          bs := b; lr := l; wd := w; iter_size := it; cj := c;
          local_rank := lo; val_freq := vf; save_freq := sf;
          log_freq := lf |} := a in
  match d with
  | d_frame_num => with_int v (fun z => Build_Args z ds da re sm ep mo te b l w it c lo vf sf lf)
  | d_dataset => Some (Build_Args fn v da re sm ep mo te b l w it c lo vf sf lf)
  | d_data => Some (Build_Args fn ds (Some v) re sm ep mo te b l w it c lo vf sf lf)
  | d_resume => Some (Build_Args fn ds da (Some v) sm ep mo te b l w it c lo vf sf lf)
  | d_save_model => Some (Build_Args fn ds da re v ep mo te b l w it c lo vf sf lf)
  | d_epochs => with_int v (fun z => Build_Args fn ds da re sm z mo te b l w it c lo vf sf lf)
  | d_model => Some (Build_Args fn ds da re sm ep v te b l w it c lo vf sf lf)
  | d_temperature => with_float v (fun x => Build_Args fn ds da re sm ep mo x b l w it c lo vf sf lf)
  | d_bs => with_int v (fun z => Build_Args fn ds da re sm ep mo te z l w it c lo vf sf lf)
  | d_lr => with_float v (fun x => Build_Args fn ds da re sm ep mo te b x w it c lo vf sf lf)
  | d_wd => with_float v (fun x => Build_Args fn ds da re sm ep mo te b l x it c lo vf sf lf)
  | d_iter_size => with_int v (fun z => Build_Args fn ds da re sm ep mo te b l w z c lo vf sf lf)
  | d_cj => Some (Build_Args fn ds da re sm ep mo te b l w it true lo vf sf lf)
  | d_local_rank => with_int v (fun z => Build_Args fn ds da re sm ep mo te b l w it c z vf sf lf)
  | d_val_freq => with_int v (fun z => Build_Args fn ds da re sm ep mo te b l w it c lo z sf lf)
  | d_save_freq => with_int v (fun z => Build_Args fn ds da re sm ep mo te b l w it c lo vf z lf)
  | d_log_freq => with_int v (fun z => Build_Args fn ds da re sm ep mo te b l w it c lo vf sf z)
  end.

(** A token can be the argument of an option when it does not look like an
    option itself: it does not start with a dash, or it is a negative int. *)
Definition is_argument (tok : string) : bool :=
  if String.prefix "-" tok then
    match py_int tok with Some _ => true | None => false end
  else true.

(** [parser.parse_args()] over the command line [argv], for command lines
    that spell every option out in full and separate it from its argument;
    [None] is argparse's error exit. *)
Fixpoint parse_args (argv : list string) (a : Args) : option Args :=
  match argv with
  | [] => Some a
  | tok :: rest =>
      match find_option tok option_strings with
      | None => None
      | Some d_cj =>
          match store d_cj "" a with
          | Some a' => parse_args rest a'
          | None => None
          end
      | Some d =>
          match rest with
          | v :: rest' =>
              if is_argument v then
                match store d v a with
                | Some a' => parse_args rest' a'
                | None => None
                end
              else None
          | [] => None
          end
      end
  end.

Definition parse_options (argv : list string) : option Args :=
  parse_args argv default_args.

(** ** Effects: calls made, live objects, files, exceptions *)

Record checkpoint : Type := {
  ck_epoch : Z;
  ck_state_dict : ModelSD;
  ck_optimizer : OptimSD;
  ck_scheduler : SchedSD
}.

Inductive log_msg : Type :=
| LoadingCheckpoint (path : string)
| LoadedCheckpoint (path : string) (epoch : Z)
| NoCheckpointFound (path : string)
| StartingTraining (epoch : Z)
| TrainProgress (epoch i len : Z) (v a : Float)
| FinishedTraining (epoch : Z)
| StartingValidation
| ValidateProgress (i len : Z) (v a : Float)
| FinishedValidation.

Inductive event : Type :=
| LoggerInfo (m : log_msg)
| PrintSaved (save_path : string)
| Visdom
| VisLine (Y : list Float) (X : Z) (win : string) (append : bool)
| VisImages (win : string)
| Makedirs (path : string)
| TorchSave (c : checkpoint) (save_path : string)
| TorchLoad (path : string)
| LoadStateDict
| ModelTrain
| ModelEval
| Forward (b : Batch)
| Criterion (out : CritOut)
| Backward (loss : Tensor)
| OptimizerStep
| OptimizerZeroGrad
| SchedulerStep.

Record state : Type := {
  heap : Heap;
  files : gmap string checkpoint
}.

Definition M (A : Type) : Type := state -> list event * state * result A.

Definition ret {A : Type} (a : A) : M A := fun s => ([], s, Ok a).

Definition bind {A B : Type} (m : M A) (k : A -> M B) : M B :=
  fun s =>
    match m s with
    | (t1, s1, Ok a) =>
        match k a s1 with
        | (t2, s2, r) => (t1 ++ t2, s2, r)
        end
    | (t1, s1, Raise e) => (t1, s1, Raise e)
    end.

Definition raise {A : Type} (e : exn) : M A := fun s => ([], s, Raise e).

Definition lift {A : Type} (r : result A) : M A := fun s => ([], s, r).

Definition emit (e : event) : M unit := fun s => ([e], s, Ok tt).

Definition get_heap : M Heap := fun s => ([], s, Ok (heap s)).

Definition get_files : M (gmap string checkpoint) := fun s => ([], s, Ok (files s)).

(** A framework call that mutates the live objects. *)
Definition call (e : event) (f : Heap -> Heap) : M unit :=
  fun s => ([e], {| heap := f (heap s); files := files s |}, Ok tt).

Definition write_file (path : string) (c : checkpoint) : M unit :=
  fun s => ([], {| heap := heap s; files := <[path := c]> (files s) |}, Ok tt).

Notation "'let*' x ':=' m 'in' k" := (bind m (fun x => k))
  (at level 10, x name, m at level 100, k at level 200).
Notation "m '>>' k" := (bind m (fun _ => k))
  (at level 80, right associativity).

(** [for x in l: body(x)], the loop state [acc] being the locals it updates. *)
Fixpoint for_fold {A S : Type} (body : S -> A -> M S) (l : list A) (acc : S) : M S :=
  match l with
  | [] => ret acc
  | x :: l' => let* acc' := body acc x in for_fold body l' acc'
  end.

Definition for_each {A : Type} (body : A -> M unit) (l : list A) : M unit :=
  for_fold (fun _ x => body x) l tt.

(** ** lib.utils.AverageMeter *)

(** Modelled from the spec: [lib/utils.py] is not among the sources, so the
    class [AverageMeter] is missing; its fields are the last value, the
    running average, the weighted sum and the sum of the weights. *)
Record AverageMeter : Type := {
  am_val : Float;
  am_avg : Float;
  am_sum : Float;
  am_count : Z
}.

(** Modelled from the spec: the constructor [AverageMeter()] of the missing
    [lib/utils.py]; a meter that has seen nothing. *)
Definition AverageMeter_new : AverageMeter :=
  {| am_val := float_lit "0"; am_avg := float_lit "0";
     am_sum := float_lit "0"; am_count := 0 |}.

(** Modelled from the spec: the method [AverageMeter.update(val, n)] of the
    missing [lib/utils.py]; it keeps the last value, adds [val * n] to the sum
    and [n] to the count, and sets [avg] to their quotient, the
    batch-size-weighted running average the script returns. *)
Definition update (m : AverageMeter) (v : Float) (n : Z) : AverageMeter :=
  let s := float_add (am_sum m) (float_mul_int v n) in
  let c := am_count m + n in
  {| am_val := v; am_avg := float_div_int s c; am_sum := s; am_count := c |}.

Inductive visdom : Type := VisdomClient.

(** ** train *)

Definition len (l : DataLoader Dataset) (epoch : Z) : Z :=
  Z.of_nat (length (loader_iter l epoch)).

(** One turn of the batch loop of [train]. *)
Definition train_batch (train_loader : DataLoader Dataset)
    (criterion : CritIn -> CritOut) (epoch : Z) (args : Args)
    (vis : option visdom) (losses : AverageMeter) (ib : Z * Batch)
    : M AverageMeter :=
  let '(i, b) := ib in
  let batch_size := batch_size_of b in
  let* h := get_heap in
  call (Forward b) (fun h => snd (features b h)) >>
  let out := criterion (fst (features b h)) in
  emit (Criterion out) >>
  let '(loss, prediction) := unpack_pair out in
  let loss := tensor_div loss (iter_size args) in
  call (Backward loss) (backward loss) >>
  let losses := update losses (item loss) batch_size in
  let* r := lift (py_mod (i + 1) (iter_size args)) in
  (if r =? 0 then
     call OptimizerStep optimizer_step >>
     call OptimizerZeroGrad optimizer_zero_grad
   else ret tt) >>
  let* r := lift (py_mod i (log_freq args)) in
  (if r =? 0 then
     emit (LoggerInfo (TrainProgress epoch i (len train_loader epoch)
                         (am_val losses) (am_avg losses))) >>
     match vis with
     | Some _ =>
         let global_step := epoch * len train_loader epoch + i in
         emit (VisLine [am_val losses; am_avg losses] global_step "loss" true) >>
         let* h := get_heap in
         emit (VisLine [optimizer_lr h] global_step "lr" true) >>
         emit (VisImages "inputs") >>
         emit (VisImages "GT") >>
         emit (VisImages "pred")
     | None => ret tt
     end
   else ret tt) >>
  ret losses.

Definition train (train_loader : DataLoader Dataset)
    (criterion : CritIn -> CritOut) (epoch : Z) (args : Args)
    (vis : option visdom) : M Float :=
  emit (LoggerInfo (StartingTraining epoch)) >>
  call ModelTrain model_train >>
  let* losses := for_fold (train_batch train_loader criterion epoch args vis)
              (enumerate (loader_iter train_loader epoch)) AverageMeter_new in
  emit (LoggerInfo (FinishedTraining epoch)) >>
  ret (am_avg losses).

(** ** validate *)

Definition validate_batch (val_loader : DataLoader Dataset)
    (criterion : CritIn -> CritOut) (epoch : Z) (args : Args)
    (losses : AverageMeter) (ib : Z * Batch) : M AverageMeter :=
  let '(i, b) := ib in
  let batch_size := batch_size_of b in
  let* h := get_heap in
  call (Forward b) (fun h => snd (features b h)) >>
  let out := criterion (fst (features b h)) in
  emit (Criterion out) >>
  let loss := tensor_div (as_tensor out) (iter_size args) in
  let losses := update losses (item loss) batch_size in
  let* r := lift (py_mod i (log_freq args)) in
  (if r =? 0 then
     emit (LoggerInfo (ValidateProgress i (len val_loader epoch)
                         (am_val losses) (am_avg losses)))
   else ret tt) >>
  ret losses.

Definition validate (val_loader : DataLoader Dataset)
    (criterion : CritIn -> CritOut) (epoch : Z) (args : Args)
    (vis : option visdom) : M Float :=
  emit (LoggerInfo StartingValidation) >>
  call ModelEval model_eval >>
  let* losses := for_fold (validate_batch val_loader criterion epoch args)
              (enumerate (loader_iter val_loader epoch)) AverageMeter_new in
  match vis with
  | Some _ => emit (VisLine [am_avg losses] epoch "val_loss" true)
  | None => ret tt
  end >>
  emit (LoggerInfo FinishedValidation) >>
  ret (am_avg losses).

(** ** main *)

(** What [torch.distributed] answers in this process. *)
Record World : Type := {
  rank : Z;          (* dist.get_rank() *)
  world_size : Z     (* dist.get_world_size() *)
}.

(** [torch.utils.data.DataLoader(ds, batch_size=..., ..., drop_last=True)]. *)
Definition make_loader (ds : Dataset) (args : Args) (w : World)
    : result (DataLoader Dataset) :=
  match py_floordiv (bs args) (world_size w) with
  | Raise e => Raise e
  | Ok batch_size =>
      match py_floordiv 8 (world_size w) with
      | Raise e => Raise e
      | Ok num_workers =>
          Ok {| dl_dataset := ds;
                dl_batch_size := batch_size;
                dl_shuffle := false;
                dl_sampler := DistributedSampler ds;
                dl_pin_memory := true;
                dl_num_workers := num_workers;
                dl_drop_last := true |}
      end
  end.

(** The dataset branch: both loaders, or [NotImplementedError]; joining
    [args.data] when it is [None] is a [TypeError]. *)
Definition main_loaders (args : Args) (w : World)
    : M (DataLoader Dataset * DataLoader Dataset) :=
  if String.eqb (dataset args) "davis" then
    match data args with
    | None => raise TypeError
    | Some d =>
        let train_dataset :=
          DavisTrain (path_join d "DAVIS_train/JPEGImages/480p")
                     (path_join d "DAVIS_train/Annotations/480p")
                     (frame_num args) (cj args) in
        let* train_loader := lift (make_loader train_dataset args w) in
        let val_dataset :=
          DavisTrain (path_join d "DAVIS_val/JPEGImages/480p")
                     (path_join d "DAVIS_val/Annotations/480p")
                     (frame_num args) (cj args) in
        let* val_loader := lift (make_loader val_dataset args w) in
        ret (train_loader, val_loader)
    end
  else raise NotImplementedError.

(** The resume block; [os.path.isfile] holds of the paths in [files]. The
    value is [start_epoch]. *)
Definition main_resume (args : Args) : M Z :=
  match resume args with
  | Some path =>
      if truthy (Some path) then
        let* fs := get_files in
        match fs !! path with
        | Some ckpt =>
            emit (LoggerInfo (LoadingCheckpoint path)) >>
            emit (TorchLoad path) >>
            let start_epoch := ck_epoch ckpt in
            call LoadStateDict (model_load_state_dict (ck_state_dict ckpt)) >>
            call LoadStateDict (optimizer_load_state_dict (ck_optimizer ckpt)) >>
            call LoadStateDict (scheduler_load_state_dict (ck_scheduler ckpt)) >>
            emit (LoggerInfo (LoadedCheckpoint path (ck_epoch ckpt))) >>
            ret start_epoch
        | None =>
            emit (LoggerInfo (NoCheckpointFound path)) >>
            ret 0
        end
      else ret 0
  | None => ret 0
  end.

(** The visdom block; the value is [vis]. *)
Definition main_vis (args : Args) (w : World) : M (option visdom) :=
  if rank w =? 0 then
    emit Visdom >>
    emit (VisLine [float_lit "0."; float_lit "0."] 0 "loss" false) >>
    emit (VisLine [lr args] 0 "lr" false) >>
    emit (VisLine [float_lit "0."] 0 "val_loss" false) >>
    ret (Some VisdomClient)
  else ret None.

(** [torch.save({'epoch': e, 'state_dict': ..., 'optimizer': ...,
    'scheduler': ...}, save_path)]. *)
Definition torch_save (e : Z) (save_path : string) : M unit :=
  let* h := get_heap in
  let ckpt := {| ck_epoch := e;
                 ck_state_dict := model_state_dict h;
                 ck_optimizer := optimizer_state_dict h;
                 ck_scheduler := scheduler_state_dict h |} in
  emit (TorchSave ckpt save_path) >>
  write_file save_path ckpt.

Definition epoch_checkpoint_name (epoch : Z) : string :=
  "checkpoint-epoch-" +:+ str_of_int epoch +:+ ".pth.tar".

Definition final_checkpoint_name : string := "checkpoint-final.pth.tar".

(** The per-epoch checkpoint of the loop body. *)
Definition main_save_epoch (args : Args) (w : World) (epoch : Z) : M unit :=
  let* r := lift (py_mod epoch (save_freq args)) in
  if (r =? 0) && (rank w =? 0) then
    emit (Makedirs (save_model args)) >>
    let checkpoint_name := epoch_checkpoint_name epoch in
    let save_path := path_join (save_model args) checkpoint_name in
    torch_save (epoch + 1) save_path >>
    emit (PrintSaved save_path)
  else ret tt.

(** The body of [for epoch in range(start_epoch, args.epochs)]. *)
Definition main_epoch (args : Args) (w : World)
    (train_loader val_loader : DataLoader Dataset)
    (criterion : CritIn -> CritOut) (vis : option visdom) (epoch : Z)
    : M unit :=
  let* train_loss := train train_loader criterion epoch args vis in
  let* r := lift (py_mod epoch (val_freq args)) in
  (if r =? 0 then
     let* val_loss := validate val_loader criterion epoch args vis in
     ret tt
   else ret tt) >>
  call SchedulerStep scheduler_step >>
  main_save_epoch args w epoch.

(** The checkpoint written after the loop. *)
Definition main_save_final (args : Args) : M unit :=
  emit (Makedirs (save_model args)) >>
  let checkpoint_name := final_checkpoint_name in
  let save_path := path_join (save_model args) checkpoint_name in
  torch_save (epochs args + 1) save_path >>
  emit (PrintSaved save_path).

(** [main] from the visdom block on: the epoch loop from [start_epoch] and
    the final checkpoint. *)
Definition main_from (args : Args) (w : World)
    (train_loader val_loader : DataLoader Dataset) (start_epoch : Z)
    : M unit :=
  let criterion := CrossEntropy (temperature args) in
  let* vis := main_vis args w in
  for_each (main_epoch args w train_loader val_loader criterion vis)
           (range start_epoch (epochs args)) >>
  main_save_final args.

(** [main] from the dataset branch on, the objects being constructed. *)
Definition main_body (args : Args) (w : World) : M unit :=
  let* loaders := main_loaders args w in
  let '(train_loader, val_loader) := loaders in
  let* start_epoch := main_resume args in
  main_from args w train_loader val_loader start_epoch.

(** The live objects [main] constructs. *)
Definition fresh (args : Args) (fs : gmap string checkpoint) : state :=
  {| heap := construct (model args) (local_rank args) (lr args) (wd args)
                       (epochs args);
     files := fs |}.

(** [main(args)] in a process of [w] over the files [fs]: the calls made in
    order, the final live objects and files, and how it ended. *)
Definition main (args : Args) (w : World) (fs : gmap string checkpoint)
    : list event * state * result unit :=
  main_body args w (fresh args fs).

(** ** Observations on a run *)

Definition trace_of {A : Type} (o : list event * state * result A) : list event :=
  fst (fst o).
Definition state_of {A : Type} (o : list event * state * result A) : state :=
  snd (fst o).
Definition result_of {A : Type} (o : list event * state * result A) : result A :=
  snd o.

(** Every call a computation makes satisfies [Q], however it ends. *)
Definition emits {A : Type} (Q : event -> Prop) (m : M A) : Prop :=
  forall s, Forall Q (trace_of (m s)).

(** The values the criterion returned, in call order. *)
Definition criterion_outs (tr : list event) : list CritOut :=
  flat_map (fun e => match e with Criterion out => [out] | _ => [] end) tr.

(** The backward passes and optimizer calls. *)
Definition grad_event (e : event) : bool :=
  match e with
  | Backward _ | OptimizerStep | OptimizerZeroGrad => true
  | _ => false
  end.

(** What turn [i] of the batch loop of [train] is to do with the loss [l] the
    criterion gave it. *)
Definition accumulate (iter_size : Z) (il : Z * Tensor) : list event :=
  let '(i, l) := il in
  Backward (tensor_div l iter_size) ::
  match py_mod (i + 1) iter_size with
  | Ok 0 => [OptimizerStep; OptimizerZeroGrad]
  | _ => []
  end.

Definition is_vis (e : event) : bool :=
  match e with
  | Visdom | VisLine _ _ _ _ | VisImages _ => true
  | _ => false
  end.

(** The calls the batch loops make; the visdom ones only with a client. *)
Definition batch_event (vis : option visdom) (e : event) : bool :=
  match e with
  | Forward _ | Criterion _ | Backward _ | OptimizerStep | OptimizerZeroGrad
  | LoggerInfo (TrainProgress _ _ _ _ _) | LoggerInfo (ValidateProgress _ _ _ _) =>
      true
  | VisLine _ _ _ _ | VisImages _ =>
      match vis with Some _ => true | None => false end
  | _ => false
  end.

(** The updates a meter receives from the losses [ls] of the batches [bl],
    each loss scaled by [iter_size] and weighted by its batch size. *)
Definition meter_updates (iter_size : Z) (ls : list Tensor) (bl : list Batch)
    : list (Float * Z) :=
  map (fun lb => (item (tensor_div (fst lb) iter_size), batch_size_of (snd lb)))
      (combine ls bl).

Definition weighted_sum (xs : list (Float * Z)) : Float :=
  fold_left (fun s vn => float_add s (float_mul_int (fst vn) (snd vn))) xs
            (float_lit "0").

Definition total_weight (xs : list (Float * Z)) : Z :=
  fold_left (fun c vn => c + snd vn) xs 0.

(** The batch-size-weighted average of the values [xs], as a meter that saw
    them in this order has it. *)
Definition weighted_average (xs : list (Float * Z)) : Float :=
  match xs with
  | [] => float_lit "0"
  | _ => float_div_int (weighted_sum xs) (total_weight xs)
  end.


(** What one epoch of the loop of [main] is to do. *)
Definition epoch_passes (val_freq : Z) (epoch : Z) : list event :=
  LoggerInfo (StartingTraining epoch) ::
  match py_mod epoch val_freq with
  | Ok 0 => [LoggerInfo StartingValidation; SchedulerStep]
  | _ => [SchedulerStep]
  end.



Definition final_save (args : Args) : string * Z :=
  (path_join (save_model args) final_checkpoint_name, epochs args + 1).

(** The dictionary [torch.save] is given at ['epoch'] [e] over the heap [h]. *)
Definition checkpoint_of (e : Z) (h : Heap) : checkpoint :=
  {| ck_epoch := e;
     ck_state_dict := model_state_dict h;
     ck_optimizer := optimizer_state_dict h;
     ck_scheduler := scheduler_state_dict h |}.




Definition apply_update (m : AverageMeter) (vn : Float * Z) : AverageMeter :=
  update m (fst vn) (snd vn).

(** What [validate] does after its loop. *)
Definition validate_tail (vis : option visdom) (epoch : Z) (a : AverageMeter)
    : list event :=
  match vis with
  | Some _ => [VisLine [am_avg a] epoch "val_loss" true;
               LoggerInfo FinishedValidation]
  | None => [LoggerInfo FinishedValidation]
  end.

(** What the visdom block does in the process [w]. *)
Definition vis_init (args : Args) (w : World) : list event :=
  if rank w =? 0 then
    [Visdom;
     VisLine [float_lit "0."; float_lit "0."] 0 "loss" false;
     VisLine [lr args] 0 "lr" false;
     VisLine [float_lit "0."] 0 "val_loss" false]
  else [].

Definition vis_of (w : World) : option visdom :=
  if rank w =? 0 then Some VisdomClient else None.

(** The calls that are not to visdom. *)
Definition not_vis (e : event) : Prop := is_vis e = false.

(** The calls that write no checkpoint but the final one of [args]. *)
Definition only_final (args : Args) (e : event) : Prop :=
  match e with
  | TorchSave c p => (p, ck_epoch c) = final_save args
  | _ => True
  end.

(** The epochs whose training pass started. *)
Definition train_starts (tr : list event) : list Z :=
  flat_map (fun e => match e with
                     | LoggerInfo (StartingTraining epoch) => [epoch]
                     | _ => []
                     end) tr.

(** No option string of the destination [d] occurs on the command line. *)
Definition absent (d : dest) (argv : list string) : Prop :=
  forall tok, In tok argv -> find_option tok option_strings <> Some d.


(** ** The entry point *)


(** ** More observations on a run *)

(** The calls that go with writing a checkpoint. *)
Definition fs_call (e : event) : bool :=
  match e with
  | Makedirs _ | TorchSave _ _ | PrintSaved _ => true
  | _ => false
  end.

(** The checkpoints written, whole: where and what. *)
Definition saved (tr : list event) : list (string * checkpoint) :=
  flat_map (fun e => match e with
                     | TorchSave c p => [(p, c)]
                     | _ => []
                     end) tr.

(** The three calls around one [torch.save] under the directory [dir]. *)
Definition save_calls (dir : string) (pc : string * checkpoint) : list event :=
  [Makedirs dir; TorchSave (snd pc) (fst pc); PrintSaved (fst pc)].

(** The files after the checkpoints [l] were written over [fs], in order. *)
Definition write_all (l : list (string * checkpoint)) (fs : gmap string checkpoint)
    : gmap string checkpoint :=
  fold_left (fun fs pc => <[fst pc := snd pc]> fs) l fs.

(** A relation between the files before, the calls made and the files after
    holds of every run of a computation. *)
Definition runs {A : Type}
    (R : gmap string checkpoint -> list event -> gmap string checkpoint -> Prop)
    (m : M A) : Prop :=
  forall s, R (files s) (trace_of (m s)) (files (state_of (m s))).

(** What [main] may write: a per-epoch checkpoint or the final one, under
    [args.save_model], with the ['epoch'] that goes with the name. *)
Definition written_by (args : Args) (pc : string * checkpoint) : Prop :=
  (exists epoch h,
     pc = (path_join (save_model args) (epoch_checkpoint_name epoch),
           checkpoint_of (epoch + 1) h)) \/
  (exists h,
     pc = (path_join (save_model args) final_checkpoint_name,
           checkpoint_of (epochs args + 1) h)).

(** The turns of a batch loop at which progress was logged. *)
Definition progress_turns (tr : list event) : list Z :=
  flat_map (fun e => match e with
                     | LoggerInfo (TrainProgress _ i _ _ _) => [i]
                     | LoggerInfo (ValidateProgress i _ _ _) => [i]
                     | _ => []
                     end) tr.

Definition is_step (e : event) : bool :=
  match e with
  | OptimizerStep => true
  | _ => false
  end.

(** The calls [train] and [validate] have no business making. *)
Definition outside_pass (e : event) : bool :=
  match e with
  | SchedulerStep | LoadStateDict | TorchLoad _ | Visdom => true
  | _ => fs_call e
  end.

(** What every run of [main] keeps between the files before, the calls made
    and the files after: the files change by the checkpoints written and by
    nothing else, [main] writes only its own checkpoints, and every
    [torch.save] sits between [os.makedirs(args.save_model)] and the [print] of
    its path, these being all the calls of the three kinds. *)
Definition checkpointing (args : Args) (fs : gmap string checkpoint)
    (tr : list event) (fs' : gmap string checkpoint) : Prop :=
  fs' = write_all (saved tr) fs /\
  Forall (written_by args) (saved tr) /\
  List.filter fs_call tr = flat_map (save_calls (save_model args)) (saved tr).

(** The visdom calls of one logged turn of [train]. *)
Definition vis_calls (vis : option visdom) : nat :=
  match vis with Some _ => 5%nat | None => 0%nat end.

End Script.

(** ** A small framework to run the script on

    Floats, tensors, batches and state dicts are integers; the live objects
    are the triple (model, optimizer, scheduler) of counters that the
    optimizer and scheduler steps advance; every loader yields two batches. *)
Module Toy.

Definition heap0 : Type := Z * Z * Z.

Definition lit (s : string) : Z :=
  match py_int s with Some z => z | None => 0 end.

#[export] Instance torch : Torch := {|
  Float := Z;
  Tensor := Z;
  Prediction := unit;
  Batch := Z;
  CritIn := Z;
  CritOut := Z;
  Heap := heap0;
  ModelSD := Z;
  OptimSD := Z;
  SchedSD := Z;
  Dataset := string;
  py_float := py_int;
  float_lit := lit;
  float_mul_int := Z.mul;
  float_add := Z.add;
  float_div_int := Z.div;
  construct := fun _ _ _ _ _ => (0, 0, 0);
  DavisTrain := fun images _ _ _ => images;
  loader_iter := fun _ _ => [6; 10];
  model_train := fun h => h;
  model_eval := fun h => h;
  features := fun b h => (b, h);
  batch_size_of := fun _ => 2;
  CrossEntropy := fun _ c => c;
  unpack_pair := fun o => (o, tt);
  as_tensor := fun o => o;
  tensor_div := Z.div;
  backward := fun _ h => h;
  item := fun t => t;
  optimizer_step := fun '(m, o, s) => (m + 1, o + 1, s);
  optimizer_zero_grad := fun h => h;
  optimizer_lr := fun '(_, _, s) => s;
  scheduler_step := fun '(m, o, s) => (m, o, s + 1);
  model_state_dict := fun '(m, _, _) => m;
  optimizer_state_dict := fun '(_, o, _) => o;
  scheduler_state_dict := fun '(_, _, s) => s;
  model_load_state_dict := fun sd '(_, o, s) => (sd, o, s);
  optimizer_load_state_dict := fun sd '(m, _, s) => (m, sd, s);
  scheduler_load_state_dict := fun sd '(m, o, _) => (m, o, sd)
|}.

(** [--data d --epochs e --iter_size i --val_freq v --save_freq f]. *)
Definition args_of (e i v f : Z) (r : option string) : Args := {|
  frame_num := 10; dataset := "davis"; data := Some "d"; resume := r;
  save_model := "ckpt"; epochs := e; model := "resnet50"; temperature := 1;
  bs := 16; lr := 0; wd := 0; iter_size := i; cj := false; local_rank := 0;
  val_freq := v; save_freq := f; log_freq := 25
|}.


(** [--dataset kitti], which the script does not know. *)
Definition args_kitti : Args := {|
  frame_num := 10; dataset := "kitti"; data := Some "d"; resume := None;
  save_model := "ckpt"; epochs := 1; model := "resnet50"; temperature := 1;
  bs := 16; lr := 0; wd := 0; iter_size := 1; cj := false; local_rank := 0;
  val_freq := 1; save_freq := 1; log_freq := 25
|}.

Definition rank0 : World := {| rank := 0; world_size := 1 |}.
Definition rank1 : World := {| rank := 1; world_size := 2 |}.

Definition no_files : gmap string checkpoint := ∅.

(** Live objects after one optimizer and one scheduler step, over no files. *)
Definition stepped : state := {| heap := (1, 1, 1); files := no_files |}.

(** A loader as [main] builds it on one process. *)
Definition loader : DataLoader Dataset := {|
  dl_dataset := "d"; dl_batch_size := 16; dl_shuffle := false;
  dl_sampler := DistributedSampler "d"; dl_pin_memory := true;
  dl_num_workers := 8; dl_drop_last := true
|}.

Definition cross_entropy : CritIn -> CritOut := CrossEntropy 1.


(** Files that hold a checkpoint outside the directory of the script. *)
Definition kept_files : gmap string checkpoint :=
  <["notes" := checkpoint_of 7 (7, 7, 7)]> no_files.


End Toy.

(** * Properties *)

Section Theory.
Context `{T : Torch}.

(** ** The monad *)

Lemma bind_ok {A B : Type} (m : M A) (k : A -> M B) s t1 s1 a :
  m s = (t1, s1, Ok a) ->
  bind m k s = (t1 ++ trace_of (k a s1), state_of (k a s1), result_of (k a s1)).
Proof.
  intros E. unfold bind. rewrite E.
  destruct (k a s1) as [[t2 s2] r]. reflexivity.
Qed.

Lemma bind_raise {A B : Type} (m : M A) (k : A -> M B) s t1 s1 e :
  m s = (t1, s1, Raise e) -> bind m k s = (t1, s1, Raise e).
Proof. intros E. unfold bind. now rewrite E. Qed.

Lemma emits_bind {A B : Type} (Q : event -> Prop) (m : M A) (k : A -> M B) :
  emits Q m -> (forall a, emits Q (k a)) -> emits Q (bind m k).
Proof.
  intros Hm Hk s. specialize (Hm s).
  destruct (m s) as [[t1 s1] [a|e]] eqn:E.
  - rewrite (bind_ok _ _ _ _ _ _ E). cbn. apply Forall_app. split; [exact Hm|apply Hk].
  - rewrite (bind_raise _ _ _ _ _ _ E). exact Hm.
Qed.

Lemma emits_ret {A : Type} Q (a : A) : emits Q (ret a).
Proof. intros s. constructor. Qed.

Lemma emits_raise {A : Type} Q e : emits Q (@raise _ A e).
Proof. intros s. constructor. Qed.

Lemma emits_lift {A : Type} Q (r : result A) : emits Q (lift r).
Proof. intros s. constructor. Qed.

Lemma emits_get_heap Q : emits Q get_heap.
Proof. intros s. constructor. Qed.

Lemma emits_get_files Q : emits Q get_files.
Proof. intros s. constructor. Qed.

Lemma emits_write_file Q p c : emits Q (write_file p c).
Proof. intros s. constructor. Qed.

Lemma emits_emit (Q : event -> Prop) e : Q e -> emits Q (emit e).
Proof. intros H s. cbn. auto. Qed.

Lemma emits_call (Q : event -> Prop) e f : Q e -> emits Q (call e f).
Proof. intros H s. cbn. auto. Qed.

Lemma emits_for_fold {A S : Type} Q (body : S -> A -> M S) :
  (forall acc x, emits Q (body acc x)) ->
  forall l acc, emits Q (for_fold body l acc).
Proof.
  intros Hb l. induction l as [|x l IH]; intros acc; cbn [for_fold].
  - apply emits_ret.
  - apply emits_bind; [apply Hb|intros a; apply IH].
Qed.

Lemma bind_get_heap {B : Type} (k : Heap -> M B) s :
  bind get_heap k s = k (heap s) s.
Proof. unfold bind, get_heap. now destruct (k (heap s) s) as [[t2 s2] r]. Qed.

(** ** The batch loop of train *)

Lemma criterion_outs_app tr1 tr2 :
  criterion_outs (tr1 ++ tr2) = criterion_outs tr1 ++ criterion_outs tr2.
Proof. unfold criterion_outs. apply flat_map_app. Qed.

Lemma train_batch_spec train_loader criterion epoch args vis losses i b s :
  let out := criterion (fst (features b (heap s))) in
  let l := fst (unpack_pair out) in
  let losses' := update losses (item (tensor_div l (iter_size args))) (batch_size_of b) in
  let o := train_batch train_loader criterion epoch args vis losses (i, b) s in
  criterion_outs (trace_of o) = [out] /\
  List.filter grad_event (trace_of o) = accumulate (iter_size args) (i, l) /\
  Forall (fun e => batch_event vis e = true) (trace_of o) /\
  (forall a, result_of o = Ok a -> a = losses') /\
  (iter_size args <> 0 -> log_freq args <> 0 -> result_of o = Ok losses').
Proof.
  cbv zeta. unfold train_batch. rewrite bind_get_heap. cbv zeta.
  unfold accumulate, py_mod.
  destruct (unpack_pair (criterion (fst (features b (heap s))))) as [l p] eqn:E.
  cbn [fst].
  destruct (iter_size args =? 0) eqn:Ei;
    [|destruct ((i + 1) mod iter_size args) eqn:Em;
      (destruct (log_freq args =? 0) eqn:El;
       [|destruct (i mod log_freq args) eqn:Em2; [destruct vis| |]])];
    cbn; rewrite ?Z.eqb_eq, ?Z.eqb_neq in *;
    repeat split; auto; try congruence; try contradiction;
    repeat constructor.
Qed.

Lemma train_loop_spec train_loader criterion epoch args vis l :
  forall i acc s,
  let o := for_fold (train_batch train_loader criterion epoch args vis)
             (enumerate_from i l) acc s in
  let ls := map (fun out => fst (unpack_pair out)) (criterion_outs (trace_of o)) in
  List.filter grad_event (trace_of o)
    = flat_map (accumulate (iter_size args)) (enumerate_from i ls) /\
  Forall (fun e => batch_event vis e = true) (trace_of o) /\
  (forall a, result_of o = Ok a ->
     length ls = length l /\
     a = fold_left apply_update (meter_updates (iter_size args) ls l) acc) /\
  (iter_size args <> 0 -> log_freq args <> 0 -> exists a, result_of o = Ok a).
Proof.
  induction l as [|b l IH]; intros i acc s; cbn [enumerate_from for_fold].
  - cbn. split; [reflexivity|]. split; [constructor|]. split; [|eauto].
    intros a [= <-]. split; reflexivity.
  - destruct (train_batch_spec train_loader criterion epoch args vis acc i b s)
      as (Hc & Hg & Hb & Hr & Ht).
    destruct (train_batch train_loader criterion epoch args vis acc (i, b) s)
      as [[t1 s1] [a1|e]] eqn:E; cbn [trace_of result_of fst snd] in *.
    + rewrite (bind_ok _ _ _ _ _ _ E). cbn [trace_of result_of fst snd].
      specialize (IH (i + 1) a1 s1). cbv zeta in IH.
      destruct IH as (IHg & IHb & IHr & IHt).
      rewrite criterion_outs_app, Hc, List.filter_app, Hg, IHg.
      cbn [app map enumerate_from flat_map].
      split; [reflexivity|]. split; [apply Forall_app; split; assumption|].
      split; [|exact IHt].
      intros a Ha. apply IHr in Ha. destruct Ha as [Hl Ha]. split.
      * cbn. now rewrite Hl.
      * rewrite Ha. unfold meter_updates. cbn [combine map fold_left fst snd].
        unfold apply_update at 2. cbn [fst snd].
        now rewrite (Hr a1 eq_refl).
    + rewrite (bind_raise _ _ _ _ _ _ E). cbn [trace_of result_of fst snd].
      rewrite Hc, Hg. cbn [app map enumerate_from flat_map].
      split; [now rewrite app_nil_r|]. split; [assumption|].
      split; [discriminate|].
      intros H1 H2. specialize (Ht H1 H2). discriminate.
Qed.

Lemma fold_update_fields xs :
  forall m,
  let m' := fold_left apply_update xs m in
  am_sum m' = fold_left (fun s vn => float_add s (float_mul_int (fst vn) (snd vn)))
                xs (am_sum m) /\
  am_count m' = fold_left (fun c vn => c + snd vn) xs (am_count m) /\
  (xs <> [] -> am_avg m' = float_div_int (am_sum m') (am_count m')).
Proof.
  induction xs as [|x xs IH]; intros m; cbn [fold_left].
  - repeat split; congruence.
  - destruct (IH (apply_update m x)) as (Hs & Hc & Ha). cbv zeta.
    rewrite Hs, Hc. split; [reflexivity|]. split; [reflexivity|].
    intros _. destruct xs as [|y xs].
    + reflexivity.
    + rewrite <- Hs, <- Hc. apply Ha. discriminate.
Qed.

Lemma fold_update_avg xs :
  am_avg (fold_left apply_update xs AverageMeter_new) = weighted_average xs.
Proof.
  destruct xs as [|x xs]; [reflexivity|].
  destruct (fold_update_fields (x :: xs) AverageMeter_new) as (Hs & Hc & Ha).
  rewrite Ha by discriminate. rewrite Hs, Hc. reflexivity.
Qed.

Lemma filter_none (P : event -> bool) (l : list event) :
  Forall (fun e => P e = false) l -> List.filter P l = [].
Proof.
  induction 1 as [|e l He _ IH]; cbn; [reflexivity|]. now rewrite He.
Qed.



Lemma train_run train_loader criterion epoch args vis s :
  train train_loader criterion epoch args vis s =
  let o := for_fold (train_batch train_loader criterion epoch args vis)
             (enumerate (loader_iter train_loader epoch)) AverageMeter_new
             {| heap := model_train (heap s); files := files s |} in
  match result_of o with
  | Ok a => (LoggerInfo (StartingTraining epoch) :: ModelTrain ::
               trace_of o ++ [LoggerInfo (FinishedTraining epoch)],
             state_of o, Ok (am_avg a))
  | Raise e => (LoggerInfo (StartingTraining epoch) :: ModelTrain :: trace_of o,
                state_of o, Raise e)
  end.
Proof.
  unfold train, bind, emit, call, ret. cbn.
  destruct (for_fold _ _ _ _) as [[t1 s1] [a|e]]; reflexivity.
Qed.

(** The shape of a run of [train]: the two opening calls, the calls of the
    batch loop, and the closing log line unless the loop raised. *)
Lemma train_shape train_loader criterion epoch args vis s :
  let o := train train_loader criterion epoch args vis s in
  let bl := loader_iter train_loader epoch in
  exists tr tl,
    trace_of o = LoggerInfo (StartingTraining epoch) :: ModelTrain :: tr ++ tl /\
    Forall (fun e => batch_event vis e = true) tr /\
    (let ls := map (fun out => fst (unpack_pair out)) (criterion_outs tr) in
     List.filter grad_event tr
       = flat_map (accumulate (iter_size args)) (enumerate ls) /\
     ((tl = [] /\ exists e, result_of o = Raise e) \/
      (tl = [LoggerInfo (FinishedTraining epoch)] /\
       length ls = length bl /\
       result_of o = Ok (weighted_average (meter_updates (iter_size args) ls bl)))) /\
     (iter_size args <> 0 -> log_freq args <> 0 ->
      tl = [LoggerInfo (FinishedTraining epoch)])).
Proof.
  cbv zeta. rewrite train_run.
  set (st := {| heap := model_train (heap s); files := files s |}).
  pose proof (train_loop_spec train_loader criterion epoch args vis
                (loader_iter train_loader epoch) 0 AverageMeter_new st) as H.
  cbv zeta in H. destruct H as (Hg & Hb & Hr & Ht).
  fold (enumerate (loader_iter train_loader epoch)) in *.
  destruct (for_fold _ (enumerate (loader_iter train_loader epoch)) AverageMeter_new st)
    as [[t1 s1] [a|e]] eqn:E; cbn [trace_of state_of result_of fst snd] in *.
  - exists t1, [LoggerInfo (FinishedTraining epoch)].
    split; [reflexivity|]. split; [assumption|]. split; [assumption|].
    split; [|reflexivity]. right.
    destruct (Hr a eq_refl) as [Hl Ha]. split; [reflexivity|]. split; [assumption|].
    rewrite Ha. now rewrite fold_update_avg.
  - exists t1, []. rewrite app_nil_r.
    split; [reflexivity|]. split; [assumption|]. split; [assumption|].
    split; [left; eauto|].
    intros H1 H2. destruct (Ht H1 H2) as [a Ha]. discriminate.
Qed.

(** ** The batch loop of validate *)

Lemma validate_batch_spec val_loader criterion epoch args vis losses i b s :
  let out := criterion (fst (features b (heap s))) in
  let losses' := update losses (item (tensor_div (as_tensor out) (iter_size args)))
                   (batch_size_of b) in
  let o := validate_batch val_loader criterion epoch args losses (i, b) s in
  criterion_outs (trace_of o) = [out] /\
  List.filter grad_event (trace_of o) = [] /\
  Forall (fun e => batch_event vis e = true) (trace_of o) /\
  (forall a, result_of o = Ok a -> a = losses') /\
  (log_freq args <> 0 -> result_of o = Ok losses').
Proof.
  cbv zeta. unfold validate_batch. rewrite bind_get_heap. cbv zeta.
  unfold py_mod.
  destruct (log_freq args =? 0) eqn:El;
    [|destruct (i mod log_freq args) eqn:Em2];
    cbn; rewrite ?Z.eqb_eq, ?Z.eqb_neq in *;
    repeat split; auto; try congruence; try contradiction;
    repeat constructor.
Qed.

Lemma validate_loop_spec val_loader criterion epoch args vis l :
  forall i acc s,
  let o := for_fold (validate_batch val_loader criterion epoch args)
             (enumerate_from i l) acc s in
  let ls := map as_tensor (criterion_outs (trace_of o)) in
  List.filter grad_event (trace_of o) = [] /\
  Forall (fun e => batch_event vis e = true) (trace_of o) /\
  (forall a, result_of o = Ok a ->
     length ls = length l /\
     a = fold_left apply_update (meter_updates (iter_size args) ls l) acc) /\
  (log_freq args <> 0 -> exists a, result_of o = Ok a).
Proof.
  induction l as [|b l IH]; intros i acc s; cbn [enumerate_from for_fold].
  - cbn. split; [reflexivity|]. split; [constructor|]. split; [|eauto].
    intros a [= <-]. split; reflexivity.
  - destruct (validate_batch_spec val_loader criterion epoch args vis acc i b s)
      as (Hc & Hg & Hb & Hr & Ht).
    destruct (validate_batch val_loader criterion epoch args acc (i, b) s)
      as [[t1 s1] [a1|e]] eqn:E; cbn [trace_of result_of fst snd] in *.
    + rewrite (bind_ok _ _ _ _ _ _ E). cbn [trace_of result_of fst snd].
      specialize (IH (i + 1) a1 s1). cbv zeta in IH.
      destruct IH as (IHg & IHb & IHr & IHt).
      rewrite criterion_outs_app, Hc, List.filter_app, Hg, IHg.
      cbn [app map].
      split; [reflexivity|]. split; [apply Forall_app; split; assumption|].
      split; [|exact IHt].
      intros a Ha. apply IHr in Ha. destruct Ha as [Hl Ha]. split.
      * cbn. now rewrite Hl.
      * rewrite Ha. unfold meter_updates. cbn [combine map fold_left fst snd].
        unfold apply_update at 2. cbn [fst snd].
        now rewrite (Hr a1 eq_refl).
    + rewrite (bind_raise _ _ _ _ _ _ E). cbn [trace_of result_of fst snd].
      rewrite Hg.
      split; [reflexivity|]. split; [assumption|].
      split; [discriminate|].
      intros H1. specialize (Ht H1). discriminate.
Qed.

Lemma validate_run val_loader criterion epoch args vis s :
  validate val_loader criterion epoch args vis s =
  let o := for_fold (validate_batch val_loader criterion epoch args)
             (enumerate (loader_iter val_loader epoch)) AverageMeter_new
             {| heap := model_eval (heap s); files := files s |} in
  match result_of o with
  | Ok a => (LoggerInfo StartingValidation :: ModelEval ::
               trace_of o ++ validate_tail vis epoch a,
             state_of o, Ok (am_avg a))
  | Raise e => (LoggerInfo StartingValidation :: ModelEval :: trace_of o,
                state_of o, Raise e)
  end.
Proof.
  unfold validate, validate_tail, bind, emit, call, ret. cbn.
  destruct (for_fold _ _ _ _) as [[t1 s1] [a|e]]; [destruct vis|]; reflexivity.
Qed.

Lemma validate_shape val_loader criterion epoch args vis s :
  let o := validate val_loader criterion epoch args vis s in
  let bl := loader_iter val_loader epoch in
  exists tr tl,
    trace_of o = LoggerInfo StartingValidation :: ModelEval :: tr ++ tl /\
    Forall (fun e => batch_event vis e = true) tr /\
    (let ls := map as_tensor (criterion_outs tr) in
     List.filter grad_event tr = [] /\
     ((tl = [] /\ exists e, result_of o = Raise e) \/
      ((exists a, tl = validate_tail vis epoch a) /\
       length ls = length bl /\
       result_of o = Ok (weighted_average (meter_updates (iter_size args) ls bl)))) /\
     (log_freq args <> 0 -> exists a, tl = validate_tail vis epoch a)).
Proof.
  cbv zeta. rewrite validate_run.
  set (st := {| heap := model_eval (heap s); files := files s |}).
  pose proof (validate_loop_spec val_loader criterion epoch args vis
                (loader_iter val_loader epoch) 0 AverageMeter_new st) as H.
  cbv zeta in H. destruct H as (Hg & Hb & Hr & Ht).
  fold (enumerate (loader_iter val_loader epoch)) in *.
  destruct (for_fold _ (enumerate (loader_iter val_loader epoch)) AverageMeter_new st)
    as [[t1 s1] [a|e]] eqn:E; cbn [trace_of state_of result_of fst snd] in *.
  - exists t1, (validate_tail vis epoch a).
    split; [reflexivity|]. split; [assumption|]. split; [assumption|].
    split; [|eauto]. right.
    destruct (Hr a eq_refl) as [Hl Ha]. split; [eauto|]. split; [assumption|].
    rewrite Ha. now rewrite fold_update_avg.
  - exists t1, []. rewrite app_nil_r.
    split; [reflexivity|]. split; [assumption|]. split; [assumption|].
    split; [left; eauto|].
    intros H1. destruct (Ht H1) as [a Ha]. discriminate.
Qed.

(** ** A pass as the loop of main sees it *)






(** ** The checkpoints *)

Lemma torch_save_run e save_path s :
  torch_save e save_path s =
  ([TorchSave (checkpoint_of e (heap s)) save_path],
   {| heap := heap s; files := <[save_path := checkpoint_of e (heap s)]> (files s) |},
   Ok tt).
Proof. reflexivity. Qed.

Lemma main_save_epoch_run args w epoch s :
  save_freq args <> 0 ->
  main_save_epoch args w epoch s =
  if (epoch mod save_freq args =? 0) && (rank w =? 0) then
    let save_path := path_join (save_model args) (epoch_checkpoint_name epoch) in
    ([Makedirs (save_model args);
      TorchSave (checkpoint_of (epoch + 1) (heap s)) save_path;
      PrintSaved save_path],
     {| heap := heap s;
        files := <[save_path := checkpoint_of (epoch + 1) (heap s)]> (files s) |},
     Ok tt)
  else ([], s, Ok tt).
Proof.
  intros H. apply Z.eqb_neq in H.
  unfold main_save_epoch, py_mod. rewrite H.
  unfold bind at 1. cbn [lift].
  destruct ((epoch mod save_freq args =? 0) && (rank w =? 0)); reflexivity.
Qed.


(** ** The loop of main *)






Lemma main_vis_run args w s :
  main_vis args w s = (vis_init args w, s, Ok (vis_of w)).
Proof.
  unfold main_vis, vis_init, vis_of. destruct (rank w =? 0); reflexivity.
Qed.


(** ** The dataset branch and the resume block *)





Lemma main_unfold args w fs :
  main args w fs = main_body args w (fresh args fs).
Proof. reflexivity. Qed.


(** ** Calls that a run never makes *)

Lemma emits_bind_res {A B : Type} (Q : event -> Prop) (m : M A) (k : A -> M B) :
  emits Q m -> (forall a s, result_of (m s) = Ok a -> emits Q (k a)) ->
  emits Q (bind m k).
Proof.
  intros Hm Hk s. specialize (Hm s).
  destruct (m s) as [[t1 s1] [a|e]] eqn:E.
  - rewrite (bind_ok _ _ _ _ _ _ E). cbn. apply Forall_app. split; [exact Hm|].
    apply (Hk a s). now rewrite E.
  - rewrite (bind_raise _ _ _ _ _ _ E). exact Hm.
Qed.

Ltac emits_step :=
  first
    [ apply emits_ret | apply emits_raise | apply emits_lift
    | apply emits_get_heap | apply emits_get_files | apply emits_write_file
    | apply emits_emit | apply emits_call
    | apply emits_for_fold; intros
    | apply emits_bind; [|intros]
    | match goal with
      | |- emits _ (if ?c then _ else _) => destruct c
      | |- emits _ (match ?v with _ => _ end) => destruct v
      end ].

Ltac emits_with tac := repeat first [tac | emits_step].

Lemma train_not_vis train_loader criterion epoch args :
  emits not_vis (train train_loader criterion epoch args None).
Proof. unfold train, train_batch. emits_with fail; reflexivity. Qed.

Lemma validate_not_vis val_loader criterion epoch args :
  emits not_vis (validate val_loader criterion epoch args None).
Proof. unfold validate, validate_batch. emits_with fail; reflexivity. Qed.

Lemma main_save_epoch_other_rank Q args w epoch :
  rank w <> 0 -> emits Q (main_save_epoch args w epoch).
Proof.
  intros Hr. apply Z.eqb_neq in Hr. unfold main_save_epoch.
  apply emits_bind; [apply emits_lift|]. intros r.
  rewrite Hr, andb_false_r. apply emits_ret.
Qed.

(** On a rank other than 0 every stage of [main] makes only calls in [Q],
    when the passes without a visdom client and the calls outside the
    per-epoch checkpoint do. *)
Lemma main_other_rank (Q : event -> Prop) args w fs :
  rank w <> 0 ->
  (forall l c e, emits Q (train l c e args None)) ->
  (forall l c e, emits Q (validate l c e args None)) ->
  (forall m, Q (LoggerInfo m)) -> Q (TorchLoad (default "" (resume args))) ->
  Q LoadStateDict -> Q SchedulerStep -> Q (Makedirs (save_model args)) ->
  Q (PrintSaved (path_join (save_model args) final_checkpoint_name)) ->
  (forall h, Q (TorchSave (checkpoint_of (epochs args + 1) h)
                  (path_join (save_model args) final_checkpoint_name))) ->
  Forall Q (trace_of (main args w fs)).
Proof.
  intros Hr Ht Hv Hlog Hload Hlsd Hss Hmk Hpr Hsave. rewrite main_unfold.
  generalize (fresh args fs). change (emits Q (main_body args w)).
  unfold main_body.
  apply emits_bind.
  { unfold main_loaders. emits_with fail. }
  intros [tl vl]. apply emits_bind.
  { unfold main_resume. destruct (resume args) as [p|]; [|apply emits_ret].
    cbn [default] in Hload. emits_with fail; auto. }
  intros start. unfold main_from. apply emits_bind_res.
  { unfold main_vis. apply Z.eqb_neq in Hr. rewrite Hr. apply emits_ret. }
  intros vis s Hvis. rewrite main_vis_run in Hvis. cbn in Hvis.
  unfold vis_of in Hvis. pose proof Hr as Hr'. apply Z.eqb_neq in Hr'.
  rewrite Hr' in Hvis. injection Hvis as <-.
  apply emits_bind.
  - unfold for_each. apply emits_for_fold. intros _ epoch. unfold main_epoch.
    emits_with ltac:(first [apply Ht | apply Hv
                           | apply main_save_epoch_other_rank; exact Hr]); auto.
  - intros _. unfold main_save_final, torch_save.
    emits_with fail; auto. apply Hsave.
Qed.

Lemma main_not_vis args w fs :
  rank w <> 0 -> Forall not_vis (trace_of (main args w fs)).
Proof.
  intros Hr. apply main_other_rank; try reflexivity; auto.
  - intros. apply train_not_vis.
  - intros. apply validate_not_vis.
Qed.


Lemma main_only_final args w fs :
  rank w <> 0 -> Forall (only_final args) (trace_of (main args w fs)).
Proof.
  intros Hr. apply main_other_rank; try exact I; auto.
  - intros. unfold train, train_batch. emits_with fail; exact I.
  - intros. unfold validate, validate_batch. emits_with fail; exact I.
  - intros. exact I.
  - intros. reflexivity.
Qed.

(** ** A run of main that returns *)


(** ** The epochs of the loop *)


Lemma train_starts_passes val_freq l :
  train_starts (flat_map (epoch_passes val_freq) l) = l.
Proof.
  unfold train_starts. induction l as [|x l IH]; [reflexivity|].
  cbn [flat_map]. unfold epoch_passes at 1.
  destruct (py_mod x val_freq) as [[| |]|]; cbn; now rewrite IH.
Qed.


Lemma range_empty a b : b <= a -> range a b = [].
Proof.
  intros H. unfold range. replace (Z.to_nat (b - a)) with 0%nat by lia. reflexivity.
Qed.

(** ** The training passes of any run *)






(** ** parse_options *)

Section Defaults.
Context {X : Type} (f : Args -> X) (d : dest).
Hypothesis store_other :
  forall d' v a a', store d' v a = Some a' -> d' <> d -> f a' = f a.

Lemma parse_args_keeps n :
  forall argv a a',
    (length argv <= n)%nat -> parse_args argv a = Some a' -> absent d argv ->
    f a' = f a.
Proof.
  induction n as [|n IH]; intros argv a a' Hn Hp Ha.
  - destruct argv; [|cbn in Hn; lia]. now injection Hp as <-.
  - destruct argv as [|tok rest]; [now injection Hp as <-|].
    cbn [parse_args] in Hp.
    assert (Htok : find_option tok option_strings <> Some d)
      by (apply Ha; now left).
    assert (Hrest : absent d rest) by (intros t Ht; apply Ha; now right).
    cbn [length] in Hn.
    destruct (find_option tok option_strings) as [d'|] eqn:Ef; [|discriminate].
    assert (Hd : d' <> d) by congruence.
    assert (Hflag : forall a1, store d' "" a = Some a1 ->
                      parse_args rest a1 = Some a' -> f a' = f a).
    { intros a1 Hs Hp1. rewrite <- (store_other _ _ _ _ Hs Hd).
      apply (IH rest); [lia|assumption|assumption]. }
    assert (Hval : match rest with
                   | v :: rest' =>
                       if is_argument v then
                         match store d' v a with
                         | Some a1 => parse_args rest' a1
                         | None => None
                         end
                       else None
                   | [] => None
                   end = Some a' -> f a' = f a).
    { destruct rest as [|v rest']; [discriminate|].
      destruct (is_argument v); [|discriminate].
      destruct (store d' v a) as [a1|] eqn:Es; [|discriminate].
      intros Hp1. rewrite <- (store_other _ _ _ _ Es Hd).
      apply (IH rest'); [cbn [length] in Hn; lia|assumption|].
      intros t Ht. apply Hrest. now right. }
    destruct d'; try (exact (Hval Hp)).
    destruct (store d_cj "" a) as [a1|] eqn:Es; [|discriminate].
    exact (Hflag a1 eq_refl Hp).
Qed.

Lemma parse_options_default argv args :
  parse_options argv = Some args -> absent d argv -> f args = f default_args.
Proof.
  intros Hp Ha. exact (parse_args_keeps (length argv) argv _ _ (le_n _) Hp Ha).
Qed.

End Defaults.

Ltac store_other_tac :=
  intros d' v a a' Hs Hd; destruct a, d'; cbn in Hs;
  unfold with_int, with_float in Hs;
  try destruct (py_int v); try destruct (py_float v);
  try discriminate; try (injection Hs as <-; reflexivity); congruence.

Lemma store_dataset d' v a a' :
  store d' v a = Some a' -> d' <> d_dataset -> dataset a' = dataset a.
Proof. revert d' v a a'. store_other_tac. Qed.

Lemma store_epochs d' v a a' :
  store d' v a = Some a' -> d' <> d_epochs -> epochs a' = epochs a.
Proof. revert d' v a a'. store_other_tac. Qed.

Lemma store_frame_num d' v a a' :
  store d' v a = Some a' -> d' <> d_frame_num -> frame_num a' = frame_num a.
Proof. revert d' v a a'. store_other_tac. Qed.

Lemma store_iter_size d' v a a' :
  store d' v a = Some a' -> d' <> d_iter_size -> iter_size a' = iter_size a.
Proof. revert d' v a a'. store_other_tac. Qed.

Lemma store_val_freq d' v a a' :
  store d' v a = Some a' -> d' <> d_val_freq -> val_freq a' = val_freq a.
Proof. revert d' v a a'. store_other_tac. Qed.

Lemma store_save_freq d' v a a' :
  store d' v a = Some a' -> d' <> d_save_freq -> save_freq a' = save_freq a.
Proof. revert d' v a a'. store_other_tac. Qed.

(** ** The claims *)





(** C3. In train, every loss the criterion returns is divided by
    args.iter_size before its backward pass, and optimizer.step() followed by
    optimizer.zero_grad() comes after the backward pass of turn i exactly when
    (i + 1) % args.iter_size == 0, and nowhere else; with iter_size and
    log_freq not zero there is one such turn per batch. *)
Theorem train_gradient_accumulation (train_loader : DataLoader Dataset)
    (criterion : CritIn -> CritOut) (epoch : Z) (args : Args)
    (vis : option visdom) (s : state) :
  let tr := trace_of (train train_loader criterion epoch args vis s) in
  let ls := map (fun out => fst (unpack_pair out)) (criterion_outs tr) in
  List.filter grad_event tr = flat_map (accumulate (iter_size args)) (enumerate ls) /\
  (iter_size args <> 0 -> log_freq args <> 0 ->
   length ls = length (loader_iter train_loader epoch)).
Proof.
  cbv zeta.
  destruct (train_shape train_loader criterion epoch args vis s)
    as (tr & tl & Ht & Hb & Hg & Hc & Htl).
  assert (Ho : criterion_outs (trace_of (train train_loader criterion epoch args vis s))
               = criterion_outs tr).
  { rewrite Ht. change (criterion_outs (tr ++ tl) = criterion_outs tr).
    rewrite criterion_outs_app.
    destruct Hc as [[-> _]|[-> _]]; cbn; apply app_nil_r. }
  rewrite Ho. split.
  - rewrite Ht. cbn [List.filter grad_event]. rewrite List.filter_app, Hg.
    destruct Hc as [[-> _]|[-> _]]; cbn; apply app_nil_r.
  - intros Hi Hl. rewrite (Htl Hi Hl) in Hc.
    destruct Hc as [[[=] _]|(_ & Hlen & _)]. exact Hlen.
Qed.

(** C4. parse_options leaves args.dataset at 'davis', and epochs at 240,
    frame_num at 10, iter_size, val_freq and save_freq at 1, when the command
    line does not give the option; and main raises NotImplementedError, having
    made no call and so before its loop, for every args whose dataset is not
    'davis'. *)
Theorem dataset_selection :
  parse_options [] = Some default_args /\
  (forall argv args, parse_options argv = Some args ->
     (absent d_dataset argv -> dataset args = "davis") /\
     (absent d_epochs argv -> epochs args = 240) /\
     (absent d_frame_num argv -> frame_num args = 10) /\
     (absent d_iter_size argv -> iter_size args = 1) /\
     (absent d_val_freq argv -> val_freq args = 1) /\
     (absent d_save_freq argv -> save_freq args = 1)) /\
  (forall args w fs, dataset args <> "davis" ->
     main args w fs = ([], fresh args fs, Raise NotImplementedError)).
Proof.
  split; [reflexivity|]. split.
  - intros argv args Hp. repeat split; intros Ha.
    + exact (parse_options_default dataset d_dataset store_dataset argv args Hp Ha).
    + exact (parse_options_default epochs d_epochs store_epochs argv args Hp Ha).
    + exact (parse_options_default frame_num d_frame_num store_frame_num argv args Hp Ha).
    + exact (parse_options_default iter_size d_iter_size store_iter_size argv args Hp Ha).
    + exact (parse_options_default val_freq d_val_freq store_val_freq argv args Hp Ha).
    + exact (parse_options_default save_freq d_save_freq store_save_freq argv args Hp Ha).
  - intros args w fs Hd. rewrite main_unfold. unfold main_body, main_loaders.
    apply String.eqb_neq in Hd. rewrite Hd. reflexivity.
Qed.

(** C5. In main, vis is a Visdom client exactly on rank 0 and None
    otherwise; train and validate given vis = None make no visdom call; so a
    process of non-zero rank makes no visdom call at all. *)
Theorem visualization_only_on_rank_zero (args : Args) (w : World)
    (fs : gmap string checkpoint) :
  (forall s, result_of (main_vis args w s)
             = Ok (if rank w =? 0 then Some VisdomClient else None)) /\
  (forall l c e, emits not_vis (train l c e args None)) /\
  (forall l c e, emits not_vis (validate l c e args None)) /\
  (rank w <> 0 -> Forall not_vis (trace_of (main args w fs))).
Proof.
  split; [intros s; now rewrite main_vis_run|].
  split; [intros; apply train_not_vis|].
  split; [intros; apply validate_not_vis|].
  apply main_not_vis.
Qed.


(** C7. train and validate return losses.avg of a meter that was updated
    once per batch, in order, with the loss of the batch divided by
    args.iter_size and the batch size; that value is the batch-size-weighted
    average of the scaled losses. *)
Theorem epoch_metrics (loader : DataLoader Dataset)
    (criterion : CritIn -> CritOut) (epoch : Z) (args : Args)
    (vis : option visdom) (s : state) :
  log_freq args <> 0 ->
  let bl := loader_iter loader epoch in
  let ot := train loader criterion epoch args vis s in
  let ov := validate loader criterion epoch args vis s in
  let lt := map (fun out => fst (unpack_pair out)) (criterion_outs (trace_of ot)) in
  let lv := map as_tensor (criterion_outs (trace_of ov)) in
  (iter_size args <> 0 ->
   length lt = length bl /\
   result_of ot
     = Ok (am_avg (fold_left apply_update (meter_updates (iter_size args) lt bl)
                     AverageMeter_new))) /\
  (length lv = length bl /\
   result_of ov
     = Ok (am_avg (fold_left apply_update (meter_updates (iter_size args) lv bl)
                     AverageMeter_new))) /\
  (forall xs, am_avg (fold_left apply_update xs AverageMeter_new)
              = weighted_average xs).
Proof.
  intros Hl. cbv zeta. split; [|split; [|apply fold_update_avg]].
  - intros Hi.
    destruct (train_shape loader criterion epoch args vis s)
      as (tr & tl & Ht & _ & _ & Hc & Htl).
    rewrite (Htl Hi Hl) in *.
    destruct Hc as [[[=] _]|(_ & Hlen & Hr)].
    assert (Ho : criterion_outs (trace_of (train loader criterion epoch args vis s))
                 = criterion_outs tr).
    { rewrite Ht.
      change (criterion_outs (tr ++ [LoggerInfo (FinishedTraining epoch)])
              = criterion_outs tr).
      rewrite criterion_outs_app. apply app_nil_r. }
    rewrite Ho, fold_update_avg. split; assumption.
  - destruct (validate_shape loader criterion epoch args vis s)
      as (tr & tl & Ht & _ & _ & Hc & Htl).
    destruct (Htl Hl) as [a ->].
    destruct Hc as [[E _]|(_ & Hlen & Hr)]; [destruct vis; discriminate E|].
    assert (Ho : criterion_outs (trace_of (validate loader criterion epoch args vis s))
                 = criterion_outs tr).
    { rewrite Ht.
      change (criterion_outs (tr ++ validate_tail vis epoch a) = criterion_outs tr).
      rewrite criterion_outs_app. destruct vis; apply app_nil_r. }
    rewrite Ho, fold_update_avg. split; assumption.
Qed.




(** * More of the script *)

(** ** Relations every run keeps *)

Section Runs.
Variable R : gmap string checkpoint -> list event -> gmap string checkpoint -> Prop.
Hypothesis R_nil : forall fs, R fs [] fs.
Hypothesis R_app : forall fs t1 fs1 t2 fs2,
  R fs t1 fs1 -> R fs1 t2 fs2 -> R fs (t1 ++ t2) fs2.
Hypothesis R_call : forall fs e, fs_call e = false -> R fs [e] fs.

Lemma runs_bind {A B : Type} (m : M A) (k : A -> M B) :
  runs R m -> (forall a, runs R (k a)) -> runs R (bind m k).
Proof.
  intros Hm Hk s. specialize (Hm s).
  destruct (m s) as [[t1 s1] [a|e]] eqn:E.
  - rewrite (bind_ok _ _ _ _ _ _ E). cbn [trace_of state_of fst snd] in *.
    eapply R_app; [exact Hm|apply Hk].
  - rewrite (bind_raise _ _ _ _ _ _ E). exact Hm.
Qed.

Lemma runs_ret {A : Type} (a : A) : runs R (ret a).
Proof. intros s. apply R_nil. Qed.

Lemma runs_raise {A : Type} e : runs R (@raise _ A e).
Proof. intros s. apply R_nil. Qed.

Lemma runs_lift {A : Type} (r : result A) : runs R (lift r).
Proof. intros s. apply R_nil. Qed.

Lemma runs_get_heap : runs R get_heap.
Proof. intros s. apply R_nil. Qed.

Lemma runs_get_files : runs R get_files.
Proof. intros s. apply R_nil. Qed.

Lemma runs_emit e : fs_call e = false -> runs R (emit e).
Proof. intros H s. now apply R_call. Qed.

Lemma runs_call e f : fs_call e = false -> runs R (call e f).
Proof. intros H s. now apply R_call. Qed.

Lemma runs_for_fold {A S : Type} (body : S -> A -> M S) :
  (forall acc x, runs R (body acc x)) ->
  forall l acc, runs R (for_fold body l acc).
Proof.
  intros Hb l. induction l as [|x l IH]; intros acc; cbn [for_fold].
  - apply runs_ret.
  - apply runs_bind; [apply Hb|intros a; apply IH].
Qed.

Ltac runs_step :=
  first
    [ apply runs_ret | apply runs_raise | apply runs_lift
    | apply runs_get_heap | apply runs_get_files
    | apply runs_emit; reflexivity | apply runs_call; reflexivity
    | apply runs_for_fold; intros
    | apply runs_bind; [|intros]
    | match goal with
      | |- runs _ (if ?c then _ else _) => destruct c
      | |- runs _ (match ?v with _ => _ end) => destruct v
      end ].

Ltac runs_with tac := repeat first [tac | runs_step].

Lemma train_runs train_loader criterion epoch args vis :
  runs R (train train_loader criterion epoch args vis).
Proof. unfold train, train_batch. runs_with fail. Qed.

Lemma validate_runs val_loader criterion epoch args vis :
  runs R (validate val_loader criterion epoch args vis).
Proof. unfold validate, validate_batch. runs_with fail. Qed.

(** A relation kept by the calls outside the checkpoint code and by the two
    places that write a checkpoint is kept by [main]. *)
Lemma main_runs args w fs :
  (forall epoch, runs R (main_save_epoch args w epoch)) ->
  runs R (main_save_final args) ->
  R fs (trace_of (main args w fs)) (files (state_of (main args w fs))).
Proof.
  intros He Hf. rewrite main_unfold.
  change (R (files (fresh args fs)) (trace_of (main_body args w (fresh args fs)))
            (files (state_of (main_body args w (fresh args fs))))).
  generalize (fresh args fs). change (runs R (main_body args w)).
  unfold main_body, main_from, main_loaders, main_resume, main_vis, for_each,
    main_epoch.
  runs_with ltac:(first [apply train_runs | apply validate_runs
                        | apply He | apply Hf]).
Qed.

End Runs.

(** ** The checkpoints of any run of main *)

Lemma saved_app tr1 tr2 : saved (tr1 ++ tr2) = saved tr1 ++ saved tr2.
Proof. unfold saved. apply flat_map_app. Qed.

Lemma saved_call e : fs_call e = false -> saved [e] = [].
Proof. destruct e; cbn; congruence. Qed.

Lemma write_all_app l1 l2 fs :
  write_all (l1 ++ l2) fs = write_all l2 (write_all l1 fs).
Proof. unfold write_all. apply fold_left_app. Qed.

Lemma checkpointing_nil args fs : checkpointing args fs [] fs.
Proof. repeat split. constructor. Qed.

Lemma checkpointing_app args fs t1 fs1 t2 fs2 :
  checkpointing args fs t1 fs1 -> checkpointing args fs1 t2 fs2 ->
  checkpointing args fs (t1 ++ t2) fs2.
Proof.
  intros (-> & W1 & B1) (-> & W2 & B2). unfold checkpointing.
  rewrite saved_app, write_all_app, List.filter_app, flat_map_app, B1, B2.
  repeat split. apply Forall_app. now split.
Qed.

Lemma checkpointing_call args fs e :
  fs_call e = false -> checkpointing args fs [e] fs.
Proof.
  intros H. unfold checkpointing. rewrite (saved_call _ H). cbn. rewrite H.
  repeat split. constructor.
Qed.

Lemma main_save_epoch_checkpointing args w epoch :
  runs (checkpointing args) (main_save_epoch args w epoch).
Proof.
  intros s. destruct (Z.eq_dec (save_freq args) 0) as [E|E].
  - unfold main_save_epoch, py_mod. rewrite E. apply checkpointing_nil.
  - rewrite (main_save_epoch_run _ _ _ _ E).
    destruct ((epoch mod save_freq args =? 0) && (rank w =? 0));
      [|apply checkpointing_nil].
    cbn. repeat split. constructor; [|constructor].
    left. now exists epoch, (heap s).
Qed.

Lemma main_save_final_checkpointing args :
  runs (checkpointing args) (main_save_final args).
Proof.
  intros s. cbn. repeat split. constructor; [|constructor].
  right. now exists (heap s).
Qed.

Lemma main_checkpointing args w fs :
  checkpointing args fs (trace_of (main args w fs))
    (files (state_of (main args w fs))).
Proof.
  apply main_runs.
  - apply checkpointing_nil.
  - apply checkpointing_app.
  - apply checkpointing_call.
  - apply main_save_epoch_checkpointing.
  - apply main_save_final_checkpointing.
Qed.

Lemma write_all_other (l : list (string * checkpoint)) p :
  forall fs, Forall (fun pc => fst pc <> p) l -> write_all l fs !! p = fs !! p.
Proof.
  induction l as [|[q c] l IH]; intros fs H; [reflexivity|].
  apply Forall_cons in H. destruct H as [Hq H]. cbn in *.
  change (write_all l (<[q := c]> fs) !! p = fs !! p).
  rewrite (IH _ H). now apply lookup_insert_ne.
Qed.

Lemma write_all_keeps (l : list (string * checkpoint)) p :
  forall fs, is_Some (fs !! p) -> is_Some (write_all l fs !! p).
Proof.
  induction l as [|[q c] l IH]; intros fs H; [exact H|].
  change (is_Some (write_all l (<[q := c]> fs) !! p)). apply IH.
  destruct (decide (q = p)) as [->|Hne].
  - rewrite lookup_insert_eq. eauto.
  - now rewrite lookup_insert_ne.
Qed.



(** ** The names of the checkpoints *)

Lemma to_int_not_nil n : Z.to_int n <> Decimal.Pos Decimal.Nil /\
                         Z.to_int n <> Decimal.Neg Decimal.Nil.
Proof.
  destruct n as [|p|p]; cbn; split; try discriminate;
    intros [= H]; now apply (Unsigned.to_uint_nonnil p).
Qed.

Lemma py_int_str_of_int n : py_int (str_of_int n) = Some n.
Proof.
  unfold py_int, str_of_int.
  destruct (to_int_not_nil n) as [H1 H2].
  rewrite (NilZero.isi _ H1 H2). now rewrite DecimalZ.of_to.
Qed.

Lemma str_of_int_inj n1 n2 : str_of_int n1 = str_of_int n2 -> n1 = n2.
Proof.
  intros H. pose proof (py_int_str_of_int n1) as H1.
  rewrite H, py_int_str_of_int in H1. congruence.
Qed.

Lemma string_app_length (x s : string) :
  String.length (x +:+ s) = (String.length x + String.length s)%nat.
Proof.
  induction x as [|c x IH]; [reflexivity|].
  change (String c x +:+ s) with (String c (x +:+ s)).
  cbn [String.length]. now rewrite IH.
Qed.

Lemma string_app_inj_r (s x y : string) : x +:+ s = y +:+ s -> x = y.
Proof.
  revert y. induction x as [|c x IH]; intros [|d y] H.
  - reflexivity.
  - apply (f_equal String.length) in H.
    change (String d y +:+ s) with (String d (y +:+ s)) in H.
    change ("" +:+ s) with s in H. cbn [String.length] in H.
    rewrite string_app_length in H. lia.
  - apply (f_equal String.length) in H.
    change (String c x +:+ s) with (String c (x +:+ s)) in H.
    change ("" +:+ s) with s in H. cbn [String.length] in H.
    rewrite string_app_length in H. lia.
  - change (String c (x +:+ s) = String d (y +:+ s)) in H.
    injection H as -> H. f_equal. now apply IH.
Qed.

Lemma epoch_checkpoint_name_inj e1 e2 :
  epoch_checkpoint_name e1 = epoch_checkpoint_name e2 -> e1 = e2.
Proof.
  unfold epoch_checkpoint_name. intros H.
  apply (inj (String.app "checkpoint-epoch-")) in H.
  apply string_app_inj_r in H. now apply str_of_int_inj.
Qed.

Lemma path_join_relative_inj dir b1 b2 :
  String.prefix "/" b1 = false -> String.prefix "/" b2 = false ->
  path_join dir b1 = path_join dir b2 -> b1 = b2.
Proof.
  unfold path_join. intros -> ->.
  destruct ((dir =? "")%string || ends_with_sep dir); intros H.
  - now apply (inj (String.app dir)) in H.
  - apply (inj (String.app dir)) in H. now apply (inj (String.app "/")) in H.
Qed.

Lemma epoch_path_inj dir e1 e2 :
  path_join dir (epoch_checkpoint_name e1) = path_join dir (epoch_checkpoint_name e2)
  -> e1 = e2.
Proof.
  intros H. apply epoch_checkpoint_name_inj.
  now apply (path_join_relative_inj dir).
Qed.

Lemma epoch_path_not_final dir e :
  path_join dir (epoch_checkpoint_name e) <> path_join dir final_checkpoint_name.
Proof.
  intros H. apply (path_join_relative_inj dir) in H; [|reflexivity|reflexivity].
  discriminate H.
Qed.

(** X1. Checkpoints of different epochs have different files, and none of
    them is the file of the final checkpoint. *)
Theorem checkpoint_paths_distinct (dir : string) (e1 e2 : Z) :
  (path_join dir (epoch_checkpoint_name e1) = path_join dir (epoch_checkpoint_name e2)
   -> e1 = e2) /\
  path_join dir (epoch_checkpoint_name e1) <> path_join dir final_checkpoint_name.
Proof. split; [apply epoch_path_inj|apply epoch_path_not_final]. Qed.

(** ** What main writes *)


Lemma only_final_saved args tr :
  Forall (only_final args) tr ->
  Forall (fun pc => fst pc = path_join (save_model args) final_checkpoint_name)
         (saved tr).
Proof.
  induction 1 as [|e l He _ IH]; [constructor|].
  destruct e; try exact IH. cbn. constructor; [|exact IH].
  cbn in He. unfold final_save in He. now injection He.
Qed.

(** X3. Main removes no file, and changes no file other than the per-epoch
    checkpoints and the final checkpoint under args.save_model; on a rank
    other than 0 it changes no file but the final checkpoint. *)
Theorem main_touches_only_checkpoints (args : Args) (w : World)
    (fs : gmap string checkpoint) (p : string) :
  let fs' := files (state_of (main args w fs)) in
  (is_Some (fs !! p) -> is_Some (fs' !! p)) /\
  ((forall e, p <> path_join (save_model args) (epoch_checkpoint_name e)) ->
   p <> path_join (save_model args) final_checkpoint_name ->
   fs' !! p = fs !! p) /\
  (rank w <> 0 -> p <> path_join (save_model args) final_checkpoint_name ->
   fs' !! p = fs !! p).
Proof.
  cbv zeta. destruct (main_checkpointing args w fs) as (-> & W & _).
  split; [apply write_all_keeps|]. split.
  - intros He Hf. apply write_all_other.
    eapply Forall_impl; [exact W|]. intros [q c] [(e & h & [= -> _])|(h & [= -> _])];
      cbn; [apply not_eq_sym, He|apply not_eq_sym, Hf].
  - intros Hr Hf. apply write_all_other.
    eapply Forall_impl; [apply only_final_saved, main_only_final, Hr|].
    intros [q c]. cbn. intros ->. now apply not_eq_sym.
Qed.






(** ** A zero modulus *)

Lemma range_cons a b : a < b -> range a b = a :: range (a + 1) b.
Proof.
  intros H. unfold range.
  replace (Z.to_nat (b - a)) with (S (Z.to_nat (b - (a + 1)))) by lia.
  cbn [seq map]. f_equal; [lia|].
  rewrite <- seq_shift, map_map. apply map_ext. intros k. lia.
Qed.






(** ** Inside a pass *)

(** X8. With --iter_size 0, train raises ZeroDivisionError as soon as the
    loader yields a batch: it has then made the forward pass, the criterion
    call and the backward pass of the first batch, on a loss divided by zero,
    and no optimizer call; over an empty loader it returns. *)
Theorem train_zero_iter_size (train_loader : DataLoader Dataset)
    (criterion : CritIn -> CritOut) (epoch : Z) (args : Args)
    (vis : option visdom) (s : state) :
  iter_size args = 0 ->
  let o := train train_loader criterion epoch args vis s in
  (loader_iter train_loader epoch = [] -> exists v, result_of o = Ok v) /\
  (forall b bl, loader_iter train_loader epoch = b :: bl ->
     let out := criterion (fst (features b (model_train (heap s)))) in
     let loss := tensor_div (fst (unpack_pair out)) 0 in
     o = ([LoggerInfo (StartingTraining epoch); ModelTrain; Forward b;
           Criterion out; Backward loss],
          {| heap := backward loss (snd (features b (model_train (heap s))));
             files := files s |},
          Raise ZeroDivisionError)).
Proof.
  intros Hi. cbv zeta. rewrite train_run. split.
  - intros ->. cbn. eauto.
  - intros b bl ->. unfold enumerate. cbn [enumerate_from for_fold].
    unfold train_batch, py_mod. rewrite Hi.
    rewrite (bind_raise _ _ _
               [Forward b; Criterion (criterion (fst (features b (model_train (heap s)))));
                Backward (tensor_div (fst (unpack_pair
                   (criterion (fst (features b (model_train (heap s))))))) 0)]
               {| heap := backward (tensor_div (fst (unpack_pair
                   (criterion (fst (features b (model_train (heap s))))))) 0)
                   (snd (features b (model_train (heap s))));
                  files := files s |} ZeroDivisionError).
    + reflexivity.
    + rewrite bind_get_heap. cbv zeta. cbn [heap].
      destruct (unpack_pair (criterion (fst (features b (model_train (heap s))))))
        as [l p]. reflexivity.
Qed.

(** X9. Train and validate touch no file and make no call of main's own
    business: no scheduler step, no load, no checkpoint, no visdom client;
    validate makes no backward pass and no optimizer call either. *)
Theorem passes_stay_inside (loader : DataLoader Dataset)
    (criterion : CritIn -> CritOut) (epoch : Z) (args : Args)
    (vis : option visdom) (s : state) :
  let ot := train loader criterion epoch args vis s in
  let ov := validate loader criterion epoch args vis s in
  Forall (fun e => outside_pass e = false) (trace_of ot) /\
  files (state_of ot) = files s /\
  Forall (fun e => outside_pass e = false /\ grad_event e = false) (trace_of ov) /\
  files (state_of ov) = files s.
Proof.
  cbv zeta. split; [|split; [|split]].
  - revert s. change (emits (fun e => outside_pass e = false)
                        (train loader criterion epoch args vis)).
    unfold train, train_batch. emits_with fail; reflexivity.
  - apply (train_runs (fun fs _ fs' => fs' = fs)); congruence.
  - revert s. change (emits (fun e => outside_pass e = false /\ grad_event e = false)
                        (validate loader criterion epoch args vis)).
    unfold validate, validate_batch. emits_with fail; split; reflexivity.
  - apply (validate_runs (fun fs _ fs' => fs' = fs)); congruence.
Qed.

(** ** Logging and plotting *)

Lemma progress_turns_app tr1 tr2 :
  progress_turns (tr1 ++ tr2) = progress_turns tr1 ++ progress_turns tr2.
Proof. unfold progress_turns. apply flat_map_app. Qed.

Lemma train_batch_progress train_loader criterion epoch args vis losses i b s :
  iter_size args <> 0 -> log_freq args <> 0 ->
  let tr := trace_of (train_batch train_loader criterion epoch args vis losses (i, b) s) in
  progress_turns tr = (if i mod log_freq args =? 0 then [i] else []) /\
  length (List.filter is_vis tr) = (vis_calls vis * length (progress_turns tr))%nat.
Proof.
  intros Hi Hl. cbv zeta. unfold train_batch. rewrite bind_get_heap. cbv zeta.
  unfold py_mod. apply Z.eqb_neq in Hi, Hl. rewrite Hi, Hl.
  destruct (unpack_pair (criterion (fst (features b (heap s))))) as [l p].
  destruct vis; destruct ((i + 1) mod iter_size args);
    destruct (i mod log_freq args); cbn; split; reflexivity.
Qed.

Lemma train_loop_progress train_loader criterion epoch args vis l :
  iter_size args <> 0 -> log_freq args <> 0 ->
  forall i acc s,
  let tr := trace_of (for_fold (train_batch train_loader criterion epoch args vis)
                        (enumerate_from i l) acc s) in
  progress_turns tr
    = List.filter (fun j => j mod log_freq args =? 0) (map fst (enumerate_from i l)) /\
  length (List.filter is_vis tr) = (vis_calls vis * length (progress_turns tr))%nat.
Proof.
  intros Hi Hl. induction l as [|b l IH]; intros i acc s; cbv zeta;
    cbn [enumerate_from for_fold map].
  - cbn. split; [reflexivity|lia].
  - destruct (train_batch_progress train_loader criterion epoch args vis acc i b s Hi Hl)
      as (Hp & Hv).
    destruct (train_batch_spec train_loader criterion epoch args vis acc i b s)
      as (_ & _ & _ & _ & Hok).
    specialize (Hok Hi Hl).
    destruct (train_batch train_loader criterion epoch args vis acc (i, b) s)
      as [[t1 s1] r] eqn:E. cbn [trace_of result_of fst snd] in *. subst r.
    rewrite (bind_ok _ _ _ _ _ _ E). cbn [trace_of fst].
    destruct (IH (i + 1) (update acc (item (tensor_div
                 (fst (unpack_pair (criterion (fst (features b (heap s))))))
                 (iter_size args))) (batch_size_of b)) s1) as (IHp & IHv).
    rewrite progress_turns_app, List.filter_app, !length_app, Hv, IHv, Hp, IHp.
    cbn [List.filter fst]. split; [|lia].
    destruct (i mod log_freq args =? 0); reflexivity.
Qed.

Lemma enumerate_from_fst {A : Type} (l : list A) :
  forall i, map fst (enumerate_from i l) = range i (i + Z.of_nat (length l)).
Proof.
  induction l as [|x l IH]; intros i; cbn [enumerate_from map length].
  - rewrite range_empty; [reflexivity|lia].
  - rewrite range_cons by lia. cbn [fst]. f_equal. rewrite IH. f_equal. lia.
Qed.

(** X10. With iter_size and log_freq not zero, train logs its progress at
    exactly the turns i of the batch loop with i % log_freq == 0, the first
    one included, and makes five visdom calls per progress line when it has a
    client and none otherwise. *)
Theorem train_progress_cadence (train_loader : DataLoader Dataset)
    (criterion : CritIn -> CritOut) (epoch : Z) (args : Args)
    (vis : option visdom) (s : state) :
  iter_size args <> 0 -> log_freq args <> 0 ->
  let tr := trace_of (train train_loader criterion epoch args vis s) in
  progress_turns tr
    = List.filter (fun i => i mod log_freq args =? 0)
                  (range 0 (len train_loader epoch)) /\
  length (List.filter is_vis tr)
    = (match vis with Some _ => 5 | None => 0 end * length (progress_turns tr))%nat.
Proof.
  intros Hi Hl. cbv zeta. rewrite train_run.
  pose proof (train_loop_progress train_loader criterion epoch args vis
                (loader_iter train_loader epoch) Hi Hl 0 AverageMeter_new
                {| heap := model_train (heap s); files := files s |}) as H.
  cbv zeta in H. fold (enumerate (loader_iter train_loader epoch)) in H.
  unfold enumerate in H at 2. rewrite enumerate_from_fst in H.
  change (0 + Z.of_nat (length (loader_iter train_loader epoch)))
    with (len train_loader epoch) in H.
  fold (vis_calls vis).
  destruct (for_fold (train_batch train_loader criterion epoch args vis)
              (enumerate (loader_iter train_loader epoch)) AverageMeter_new
              {| heap := model_train (heap s); files := files s |})
    as [[t1 s1] r]. cbn [trace_of state_of result_of fst snd] in *.
  destruct H as (Hp & Hv).
  assert (Hfr : forall tl,
            tl = [] \/ tl = [LoggerInfo (FinishedTraining epoch)] ->
            progress_turns (LoggerInfo (StartingTraining epoch) :: ModelTrain :: t1 ++ tl)
              = progress_turns t1 /\
            List.filter is_vis
              (LoggerInfo (StartingTraining epoch) :: ModelTrain :: t1 ++ tl)
              = List.filter is_vis t1).
  { intros tl Htl.
    change (LoggerInfo (StartingTraining epoch) :: ModelTrain :: t1 ++ tl)
      with ([LoggerInfo (StartingTraining epoch); ModelTrain] ++ t1 ++ tl).
    rewrite !progress_turns_app, !List.filter_app.
    destruct Htl as [-> | ->]; cbn; rewrite !app_nil_r; split; reflexivity. }
  destruct r as [a|e]; cbn [trace_of fst].
  - destruct (Hfr [LoggerInfo (FinishedTraining epoch)]) as [-> ->]; [now right|].
    now split.
  - destruct (Hfr []) as [F1 F2]; [now left|]. rewrite app_nil_r in F1, F2.
    rewrite F1, F2. now split.
Qed.

(** X11. Validate given a visdom client (and log_freq not zero) returns, and
    its one visdom call plots the value it returns at X = epoch in the window
    'val_loss'; without a client it plots nothing. *)
Theorem validate_plots_average (val_loader : DataLoader Dataset)
    (criterion : CritIn -> CritOut) (epoch : Z) (args : Args)
    (vis : option visdom) (s : state) :
  log_freq args <> 0 ->
  let o := validate val_loader criterion epoch args vis s in
  exists v,
    result_of o = Ok v /\
    List.filter is_vis (trace_of o)
      = match vis with
        | Some _ => [VisLine [v] epoch "val_loss" true]
        | None => []
        end.
Proof.
  intros Hl. cbv zeta. rewrite validate_run. cbv zeta.
  pose proof (validate_loop_spec val_loader criterion epoch args None
                (loader_iter val_loader epoch) 0 AverageMeter_new
                {| heap := model_eval (heap s); files := files s |}) as H.
  cbv zeta in H. fold (enumerate (loader_iter val_loader epoch)) in H.
  destruct (for_fold (validate_batch val_loader criterion epoch args)
              (enumerate (loader_iter val_loader epoch)) AverageMeter_new
              {| heap := model_eval (heap s); files := files s |})
    as [[t1 s1] r]. cbn [trace_of state_of result_of fst snd] in *.
  destruct H as (_ & Hb & _ & Hok). destruct (Hok Hl) as [a ->].
  exists (am_avg a). split; [reflexivity|].
  cbn [trace_of fst List.filter is_vis]. rewrite List.filter_app.
  rewrite (filter_none is_vis t1).
  - unfold validate_tail. destruct vis; reflexivity.
  - eapply Forall_impl; [exact Hb|].
    intros e. destruct e as [[]| | | | | | | | | | | | | | | |]; cbn; congruence.
Qed.

(** ** The optimizer steps of a pass *)

Lemma div_succ k i :
  0 < k -> (i + 1) / k = i / k + (if (i + 1) mod k =? 0 then 1 else 0).
Proof.
  intros Hk. destruct ((i + 1) mod k =? 0) eqn:E.
  - apply Z.eqb_eq in E. Z.div_mod_to_equations. nia.
  - apply Z.eqb_neq in E. Z.div_mod_to_equations. nia.
Qed.

Lemma steps_count k (ls : list Tensor) :
  0 < k ->
  forall i,
    Z.of_nat (length (List.filter is_step
                        (flat_map (accumulate k) (enumerate_from i ls))))
    = (i + Z.of_nat (length ls)) / k - i / k.
Proof.
  intros Hk. induction ls as [|l ls IH]; intros i; cbn [enumerate_from flat_map length].
  - cbn [List.filter length Z.of_nat]. rewrite Z.add_0_r, Z.sub_diag. reflexivity.
  - rewrite List.filter_app, length_app, Nat2Z.inj_add, IH.
    replace (i + Z.of_nat (S (length ls))) with (i + 1 + Z.of_nat (length ls)) by lia.
    rewrite (div_succ k i Hk). unfold accumulate, py_mod.
    assert (Hk' : (k =? 0) = false) by (apply Z.eqb_neq; lia). rewrite Hk'.
    destruct ((i + 1) mod k); cbn; lia.
Qed.

Lemma filter_step_grad tr :
  List.filter is_step (List.filter grad_event tr) = List.filter is_step tr.
Proof.
  induction tr as [|e tr IH]; [reflexivity|].
  destruct e; cbn; rewrite ?IH; reflexivity.
Qed.

(** X12. With iter_size positive (and log_freq not zero), a training pass
    over n batches makes exactly n // iter_size optimizer steps. *)
Theorem train_step_count (train_loader : DataLoader Dataset)
    (criterion : CritIn -> CritOut) (epoch : Z) (args : Args)
    (vis : option visdom) (s : state) :
  0 < iter_size args -> log_freq args <> 0 ->
  Z.of_nat (length (List.filter is_step
                      (trace_of (train train_loader criterion epoch args vis s))))
  = len train_loader epoch / iter_size args.
Proof.
  intros Hi Hl.
  destruct (train_shape train_loader criterion epoch args vis s)
    as (tr & tl & Ht & _ & Hg & Hc & Htl).
  assert (Hne : iter_size args <> 0) by lia.
  specialize (Htl Hne Hl). subst tl.
  destruct Hc as [[[=] _]|(_ & Hlen & _)].
  rewrite Ht.
  change (LoggerInfo (StartingTraining epoch) :: ModelTrain ::
            tr ++ [LoggerInfo (FinishedTraining epoch)])
    with ([LoggerInfo (StartingTraining epoch); ModelTrain] ++
            tr ++ [LoggerInfo (FinishedTraining epoch)]).
  rewrite !List.filter_app. cbn [List.filter is_step app].
  rewrite app_nil_r, <- filter_step_grad, Hg.
  unfold enumerate. rewrite (steps_count _ _ Hi 0), Hlen.
  unfold len. rewrite Z.div_0_l by lia. now rewrite Z.add_0_l, Z.sub_0_r.
Qed.

(** ** The command line *)








End Theory.

(** * The claims on concrete runs *)





Lemma train_gradient_accumulation_witness :
  iter_size (Toy.args_of 1 2 1 1 None) <> 0 /\
  log_freq (Toy.args_of 1 2 1 1 None) <> 0 /\
  List.filter grad_event
    (trace_of (train (T := Toy.torch)
                 Toy.loader Toy.cross_entropy 0 (Toy.args_of 1 2 1 1 None) None
                 Toy.stepped))
    = [@Backward Toy.torch 3; @Backward Toy.torch 5; OptimizerStep; OptimizerZeroGrad] /\
  length (criterion_outs
    (trace_of (train (T := Toy.torch)
                 Toy.loader Toy.cross_entropy 0 (Toy.args_of 1 2 1 1 None) None
                 Toy.stepped))) = 2%nat.
Proof.
  pose proof (train_gradient_accumulation (T := Toy.torch)
                 Toy.loader Toy.cross_entropy 0 (Toy.args_of 1 2 1 1 None) None
                 Toy.stepped) as H.
  cbv zeta in H. destruct H as [Hg Hlen].
  assert (Hi : iter_size (Toy.args_of 1 2 1 1 None) <> 0) by discriminate.
  assert (Hl : log_freq (Toy.args_of 1 2 1 1 None) <> 0) by discriminate.
  specialize (Hlen Hi Hl). rewrite length_map in Hlen.
  repeat split; try assumption.
Defined.

Lemma dataset_selection_witness :
  (exists args,
     parse_options (T := Toy.torch) ["--epochs"; "3"; "--cj"] = Some args /\
     absent d_dataset ["--epochs"; "3"; "--cj"] /\
     dataset args = "davis" /\ epochs args = 3) /\
  dataset Toy.args_kitti <> "davis" /\
  result_of (main Toy.args_kitti Toy.rank0 Toy.no_files) = Raise NotImplementedError.
Proof.
  destruct (dataset_selection (T := Toy.torch)) as (_ & Hdef & Hmain).
  assert (Ha : absent d_dataset ["--epochs"; "3"; "--cj"]).
  { intros tok [<-|[<-|[<-|[]]]]; vm_compute; discriminate. }
  assert (Hk : dataset Toy.args_kitti <> "davis") by discriminate.
  split; [|split; [exact Hk|]].
  - eexists. split; [reflexivity|]. split; [exact Ha|]. split; [|reflexivity].
    refine (proj1 (Hdef ["--epochs"; "3"; "--cj"] _ eq_refl) Ha).
  - rewrite (Hmain Toy.args_kitti Toy.rank0 Toy.no_files Hk). reflexivity.
Defined.

Lemma visualization_only_on_rank_zero_witness :
  rank Toy.rank1 <> 0 /\
  Forall not_vis (trace_of (main (Toy.args_of 2 1 1 1 None) Toy.rank1 Toy.no_files)).
Proof.
  assert (Hr : rank Toy.rank1 <> 0) by discriminate.
  split; [exact Hr|].
  exact (proj2 (proj2 (proj2
    (visualization_only_on_rank_zero (T := Toy.torch) (Toy.args_of 2 1 1 1 None)
       Toy.rank1 Toy.no_files))) Hr).
Defined.



Lemma epoch_metrics_witness :
  log_freq (Toy.args_of 1 2 1 1 None) <> 0 /\
  iter_size (Toy.args_of 1 2 1 1 None) <> 0 /\
  result_of (train Toy.loader Toy.cross_entropy 0 (Toy.args_of 1 2 1 1 None) None
               Toy.stepped)
    = Ok (weighted_average (T := Toy.torch) [(3, 2); (5, 2)]) /\
  result_of (validate Toy.loader Toy.cross_entropy 0 (Toy.args_of 1 2 1 1 None) None
               Toy.stepped)
    = Ok (weighted_average (T := Toy.torch) [(3, 2); (5, 2)]) /\
  weighted_average (T := Toy.torch) [(3, 2); (5, 2)] = 4.
Proof.
  assert (Hl : log_freq (Toy.args_of 1 2 1 1 None) <> 0) by discriminate.
  assert (Hi : iter_size (Toy.args_of 1 2 1 1 None) <> 0) by discriminate.
  pose proof (epoch_metrics (T := Toy.torch) Toy.loader Toy.cross_entropy 0
                (Toy.args_of 1 2 1 1 None) None Toy.stepped Hl) as H.
  cbv zeta in H. destruct H as (Ht & (_ & Hv) & Havg).
  destruct (Ht Hi) as (_ & Hr). rewrite Havg in Hr, Hv.
  split; [exact Hl|]. split; [exact Hi|]. split; [exact Hr|]. split; [exact Hv|].
  reflexivity.
Defined.




(** * More of the script on concrete runs *)


Lemma checkpoint_paths_distinct_witness :
  path_join "ckpt" (epoch_checkpoint_name 3) = "ckpt/checkpoint-epoch-3.pth.tar" /\
  3 = 3.
Proof.
  split; [reflexivity|].
  exact (proj1 (checkpoint_paths_distinct "ckpt" 3 3) eq_refl).
Defined.

Lemma main_touches_only_checkpoints_witness :
  is_Some (Toy.kept_files !! "notes") /\
  (forall e, "notes" <> path_join (save_model (Toy.args_of 2 1 1 1 None))
                                  (epoch_checkpoint_name e)) /\
  "notes" <> path_join (save_model (Toy.args_of 2 1 1 1 None)) final_checkpoint_name /\
  files (state_of (main (Toy.args_of 2 1 1 1 None) Toy.rank0 Toy.kept_files)) !! "notes"
    = Toy.kept_files !! "notes".
Proof.
  assert (H1 : is_Some (Toy.kept_files !! "notes")) by (vm_compute; eauto).
  assert (H2 : forall e, "notes" <> path_join (save_model (Toy.args_of 2 1 1 1 None))
                                              (epoch_checkpoint_name e))
    by (intros e; discriminate).
  assert (H3 : "notes" <> path_join (save_model (Toy.args_of 2 1 1 1 None))
                                    final_checkpoint_name) by discriminate.
  pose proof (main_touches_only_checkpoints (T := Toy.torch) (Toy.args_of 2 1 1 1 None)
                Toy.rank0 Toy.kept_files "notes") as H.
  cbv zeta in H. destruct H as (_ & H & _).
  split; [exact H1|]. split; [exact H2|]. split; [exact H3|]. exact (H H2 H3).
Defined.





Lemma train_zero_iter_size_witness :
  iter_size (Toy.args_of 1 0 1 1 None) = 0 /\
  loader_iter Toy.loader 0 = [6; 10] /\
  result_of (train Toy.loader Toy.cross_entropy 0 (Toy.args_of 1 0 1 1 None) None
               Toy.stepped) = Raise ZeroDivisionError /\
  List.filter grad_event
    (trace_of (train Toy.loader Toy.cross_entropy 0 (Toy.args_of 1 0 1 1 None) None
                 Toy.stepped)) = [@Backward Toy.torch (6 / 0)].
Proof.
  pose proof (train_zero_iter_size (T := Toy.torch) Toy.loader Toy.cross_entropy 0
                (Toy.args_of 1 0 1 1 None) None Toy.stepped eq_refl) as H.
  cbv zeta in H. destruct H as [_ H].
  specialize (H 6 [10] eq_refl).
  split; [reflexivity|]. split; [reflexivity|]. rewrite H. split; reflexivity.
Defined.

Lemma train_progress_cadence_witness :
  iter_size (Toy.args_of 1 2 1 1 None) <> 0 /\
  log_freq (Toy.args_of 1 2 1 1 None) <> 0 /\
  progress_turns
    (trace_of (train Toy.loader Toy.cross_entropy 0 (Toy.args_of 1 2 1 1 None)
                 (Some VisdomClient) Toy.stepped)) = [0] /\
  length (List.filter is_vis
    (trace_of (train Toy.loader Toy.cross_entropy 0 (Toy.args_of 1 2 1 1 None)
                 (Some VisdomClient) Toy.stepped))) = 5%nat.
Proof.
  assert (Hi : iter_size (Toy.args_of 1 2 1 1 None) <> 0) by discriminate.
  assert (Hl : log_freq (Toy.args_of 1 2 1 1 None) <> 0) by discriminate.
  pose proof (train_progress_cadence (T := Toy.torch) Toy.loader Toy.cross_entropy 0
                (Toy.args_of 1 2 1 1 None) (Some VisdomClient) Toy.stepped Hi Hl) as H.
  cbv zeta in H. destruct H as [Hp Hv].
  split; [exact Hi|]. split; [exact Hl|]. split; [exact Hp|].
  rewrite Hv, Hp. reflexivity.
Defined.

Lemma validate_plots_average_witness :
  log_freq (Toy.args_of 1 2 1 1 None) <> 0 /\
  exists v,
    result_of (validate Toy.loader Toy.cross_entropy 0 (Toy.args_of 1 2 1 1 None)
                 (Some VisdomClient) Toy.stepped) = Ok v /\
    List.filter is_vis
      (trace_of (validate Toy.loader Toy.cross_entropy 0 (Toy.args_of 1 2 1 1 None)
                   (Some VisdomClient) Toy.stepped))
    = [VisLine [v] 0 "val_loss" true].
Proof.
  assert (Hl : log_freq (Toy.args_of 1 2 1 1 None) <> 0) by discriminate.
  split; [exact Hl|].
  exact (validate_plots_average (T := Toy.torch) Toy.loader Toy.cross_entropy 0
           (Toy.args_of 1 2 1 1 None) (Some VisdomClient) Toy.stepped Hl).
Defined.

Lemma train_step_count_witness :
  0 < iter_size (Toy.args_of 1 2 1 1 None) /\
  log_freq (Toy.args_of 1 2 1 1 None) <> 0 /\
  Z.of_nat (length (List.filter is_step
    (trace_of (train Toy.loader Toy.cross_entropy 0 (Toy.args_of 1 2 1 1 None) None
                 Toy.stepped)))) = 1.
Proof.
  assert (Hi : 0 < iter_size (Toy.args_of 1 2 1 1 None)) by (cbn; lia).
  assert (Hl : log_freq (Toy.args_of 1 2 1 1 None) <> 0) by discriminate.
  split; [exact Hi|]. split; [exact Hl|].
  exact (train_step_count (T := Toy.torch) Toy.loader Toy.cross_entropy 0
           (Toy.args_of 1 2 1 1 None) None Toy.stepped Hi Hl).
Defined.


